(** * Roo-NB: a shallow embedding of the notebook tool gateway

    The TypeScript sources modelled here:
    - [src/src/errors.ts] (ErrorFactory) and [src/unnamed/part_002];
    - [src/src/mcp-server.ts]: [handleToolCall], [validateToolParams],
      [parseRequestBody];
    - [src/unnamed/part_000] (notebook.ts): [executeNotebookCells] and
      [NotebookService];
    - [src/src/extension.ts]: the older copy of [executeNotebookCells].

    JavaScript numbers used as indices are modelled as [Z]; configuration
    values (JavaScript numbers of any kind) as rationals with the infinities
    and NaN; cell lists as Rocq lists; strings as [String.string], cell
    text being held as its UTF-8 encoding.  The host (VS Code document and
    kernel) is an external collaborator: what it returns is an input. *)

From Stdlib Require Import ZArith List String Ascii Bool Lia QArith Qround Lqa.
Import ListNotations.
Open Scope string_scope.
Open Scope Z_scope.

(** ** Strings and number printing *)

Module Str.

Definition nl : string := String (ascii_of_nat 10) EmptyString.

Definition digit (d : Z) : ascii := ascii_of_nat (48 + Z.to_nat d).

Fixpoint digits_aux (fuel : nat) (n : Z) (acc : string) : string :=
  match fuel with
  | O => acc
  | S f =>
      let acc' := String (digit (n mod 10)) acc in
      if n <? 10 then acc' else digits_aux f (n / 10) acc'
  end.

(** [String(n)] / template interpolation of an integer. *)
Definition of_Z (z : Z) : string :=
  match z with
  | Z0 => "0"
  | Zpos p => digits_aux (Pos.size_nat p) (Zpos p) EmptyString
  | Zneg p => "-" ++ digits_aux (Pos.size_nat p) (Zpos p) EmptyString
  end.

(** [s.trim() === ""].  A cell's source text is held as its UTF-8
    encoding; [trim()] removes the ECMAScript white space (TAB, VT, FF,
    ZWNBSP U+FEFF and the space separators U+0020, U+00A0, U+1680,
    U+2000-U+200A, U+202F, U+205F, U+3000) and line terminators (LF, CR,
    U+2028, U+2029), so the text trims to "" when it is a sequence of the
    encodings of these characters. *)
Definition is_js_space (c : ascii) : bool :=
  let n := nat_of_ascii c in
  (Nat.eqb n 9 || Nat.eqb n 10 || Nat.eqb n 11 || Nat.eqb n 12
   || Nat.eqb n 13 || Nat.eqb n 32)%bool.

(** The continuation bytes [b1 b2] after the lead byte 0xE2 of a space:
    E2 80 80..8A (U+2000-U+200A), E2 80 A8/A9 (U+2028, U+2029),
    E2 80 AF (U+202F), E2 81 9F (U+205F). *)
Definition is_space_e2 (b1 b2 : nat) : bool :=
  (Nat.eqb b1 128 && ((Nat.leb 128 b2 && Nat.leb b2 138) || Nat.eqb b2 168
                      || Nat.eqb b2 169 || Nat.eqb b2 175))
  || (Nat.eqb b1 129 && Nat.eqb b2 159).

(** The three-byte spaces: E1 9A 80 (U+1680), E2 .. .., E3 80 80
    (U+3000), EF BB BF (U+FEFF). *)
Definition is_space3 (b0 b1 b2 : nat) : bool :=
  (Nat.eqb b0 225 && Nat.eqb b1 154 && Nat.eqb b2 128)
  || (Nat.eqb b0 226 && is_space_e2 b1 b2)
  || (Nat.eqb b0 227 && Nat.eqb b1 128 && Nat.eqb b2 128)
  || (Nat.eqb b0 239 && Nat.eqb b1 187 && Nat.eqb b2 191).

Fixpoint trim_is_empty (s : string) : bool :=
  match s with
  | EmptyString => true
  | String c rest =>
      if is_js_space c then trim_is_empty rest
      else
        match rest with
        | String c1 rest1 =>
            (* C2 A0: U+00A0 *)
            if Nat.eqb (nat_of_ascii c) 194 && Nat.eqb (nat_of_ascii c1) 160
            then trim_is_empty rest1
            else
              match rest1 with
              | String c2 rest2 =>
                  is_space3 (nat_of_ascii c) (nat_of_ascii c1) (nat_of_ascii c2)
                  && trim_is_empty rest2
              | EmptyString => false
              end
        | EmptyString => false
        end
  end.

Fixpoint concat_all (l : list string) : string :=
  match l with
  | [] => EmptyString
  | s :: rest => s ++ concat_all rest
  end.

End Str.

(** ** errors.ts: error codes and the factory functions used here *)

Module Errors.

Inductive ErrorCode :=
| VALIDATION_ERROR
| NO_ACTIVE_NOTEBOOK
| INDEX_OUT_OF_BOUNDS
| MCP_SERVER_START_FAILED
| MCP_TOOL_ERROR
(** Not a code of errors.ts: stands for a plain JavaScript [TypeError]
    thrown by the runtime (e.g. reading a property of [undefined]). *)
| JS_TYPE_ERROR.

(** The structured [ErrorContext] fields that the factories set. *)
Record ErrorContext := mkContext {
  ctx_operation : option string;
  ctx_startIndex : option Z;
  ctx_stopIndex : option Z;
  ctx_cellCount : option Z;
  ctx_cellIndex : option Z
}.

Definition emptyContext : ErrorContext :=
  mkContext None None None None None.

Record RooNotebookError := mkError {
  err_message : string;
  err_code : ErrorCode;
  err_context : ErrorContext
}.

(** The optional [context] argument of [validationError] and [toolError]
    is not kept: no reply of the server reads it ([ErrorFormatter.forUser]
    reads the context of [INDEX_OUT_OF_BOUNDS] errors only, and tool
    replies print the name and message). *)
Definition validationError (message : string) : RooNotebookError :=
  mkError message VALIDATION_ERROR emptyContext.

Definition noActiveNotebook (operation : string) : RooNotebookError :=
  mkError "No active notebook editor found" NO_ACTIVE_NOTEBOOK
    (mkContext (Some operation) None None None None).

Definition indexOutOfBounds (index maxIndex : Z) (operation : string)
  : RooNotebookError :=
  mkError ("Index " ++ Str.of_Z index ++ " is out of bounds (0-"
           ++ Str.of_Z maxIndex ++ ")")
    INDEX_OUT_OF_BOUNDS
    (mkContext (Some operation) None None (Some (maxIndex + 1)) (Some index)).

Definition rangeOutOfBounds (startIndex stopIndex cellCount : Z)
  (operation : string) : RooNotebookError :=
  mkError ("Range " ++ Str.of_Z startIndex ++ "-" ++ Str.of_Z stopIndex
           ++ " is invalid for " ++ Str.of_Z cellCount ++ " cells")
    INDEX_OUT_OF_BOUNDS
    (mkContext (Some operation) (Some startIndex) (Some stopIndex)
       (Some cellCount) None).

Definition mcpServerError (message : string) : RooNotebookError :=
  mkError message MCP_SERVER_START_FAILED emptyContext.

Definition typeError (message : string) : RooNotebookError :=
  mkError message JS_TYPE_ERROR emptyContext.

Definition toolError (toolName message : string) : RooNotebookError :=
  mkError message MCP_TOOL_ERROR
    (mkContext None None None None None).

(** A fallible computation: a value, or a thrown [RooNotebookError]. *)
Inductive result (A : Type) :=
| Ok (a : A)
| Err (e : RooNotebookError).
Arguments Ok {A} a.
Arguments Err {A} e.

Definition bind {A B} (m : result A) (k : A -> result B) : result B :=
  match m with
  | Ok a => k a
  | Err e => Err e
  end.

End Errors.

Import Errors.
Notation "x <- m ;; k" := (Errors.bind m (fun x => k))
  (at level 61, m at next level, right associativity).

(** ** The host's notebook data (vscode.NotebookCell and friends) *)

Module Nb.

Inductive NotebookCellKind := Markup | Code.

Definition kind_eqb (a b : NotebookCellKind) : bool :=
  match a, b with
  | Markup, Markup | Code, Code => true
  | _, _ => false
  end.

(** A [NotebookCellOutputItem]: its MIME type and its payload; the payload
    is kept as the text [TextDecoder.decode] yields, one character per
    byte. *)
Record OutputItem := mkItem {
  item_mime : string;
  item_data : string
}.

Record ExecutionSummary := mkSummary {
  executionOrder : option Z
}.

Record NotebookCell := mkCell {
  cell_index : Z;
  cell_kind : NotebookCellKind;
  cell_languageId : string;            (* cell.document.languageId *)
  cell_text : string;                  (* cell.document.getText() *)
  cell_executionSummary : option ExecutionSummary;
  cell_outputs : list (list OutputItem);
  cell_metadata : list (string * string)
}.

(** [cell.executionSummary?.executionOrder] *)
Definition execOrder (c : NotebookCell) : option Z :=
  match cell_executionSummary c with
  | Some s => executionOrder s
  | None => None
  end.

Definition isCode (c : NotebookCell) : bool := kind_eqb (cell_kind c) Code.

(** [notebook.metadata?.metadata?.kernelspec]: language, display name and
    name. *)
Record KernelSpec := mkKernelSpec {
  ks_language : string;
  ks_display_name : string;
  ks_name : string
}.

Record NotebookDocument := mkDoc {
  nb_uri : string;
  nb_notebookType : string;
  nb_isDirty : bool;
  nb_kernelspec : option KernelSpec;
  nb_cells : list NotebookCell
}.

Definition cellCount (d : NotebookDocument) : Z := Z.of_nat (List.length (nb_cells d)).

(** [Array.prototype.slice(start, end)] with its handling of negative and
    out-of-range arguments. *)
Definition js_rel (len k : Z) : Z :=
  if k <? 0 then Z.max (len + k) 0 else Z.min k len.

Definition js_slice {A} (l : list A) (s e : Z) : list A :=
  let len := Z.of_nat (List.length l) in
  let from := js_rel len s in
  let to := js_rel len e in
  firstn (Z.to_nat (to - from)) (skipn (Z.to_nat from) l).

End Nb.

Import Nb.

(** ** mcp-server.ts: dispatch of the range-accepting tools *)

Module Dispatch.

Inductive RangeTool := ReplaceTool | ExecuteTool | DeleteTool.

Definition toolName (t : RangeTool) : string :=
  match t with
  | ReplaceTool => "replace_notebook_cells"
  | ExecuteTool => "execute_notebook_cells"
  | DeleteTool => "delete_notebook_cells"
  end.

(** The [NotebookService] method each tool calls, as named in its
    [noActiveNotebook] error. *)
Definition serviceOperation (t : RangeTool) : string :=
  match t with
  | ReplaceTool => "replaceCells"
  | ExecuteTool => "executeCells"
  | DeleteTool => "deleteCells"
  end.

(** The arguments after the [integer] part of the schema: JSON numbers that
    are integers. *)
Record RangeArgs := mkArgs {
  start_index : Z;
  stop_index : Z
}.

Definition minIssue (field : string) : string :=
  field ++ ": Number must be greater than or equal to 0".

Fixpoint join (sep : string) (l : list string) : string :=
  match l with
  | [] => EmptyString
  | [s] => s
  | s :: rest => s ++ sep ++ join sep rest
  end.

(** The Zod schema generated from the tool's [inputSchema]: both indices
    are [{"type": "integer", "minimum": 0}]; Zod reports every failing
    field, in property order. *)
Definition schemaIssues (a : RangeArgs) : list string :=
  (if start_index a <? 0 then [minIssue "start_index"] else [])
  ++ (if stop_index a <? 0 then [minIssue "stop_index"] else []).

(** [validateToolParams] *)
Definition validateToolParams (name : string) (a : RangeArgs)
  : result RangeArgs :=
  match schemaIssues a with
  | [] => Ok a
  | issues =>
      Err (validationError ("Invalid parameters for " ++ name ++ ": "
                            ++ join ", " issues))
  end.

(** The validation callback passed to the service by the three cases
    ['replace_notebook_cells'], ['execute_notebook_cells'] and
    ['delete_notebook_cells'] of [handleToolCall] (the same code in each). *)
Definition validateRange (name : string) (start_index stop_index cellCount : Z)
  : result (Z * Z) :=
  if (start_index <? 0) || (start_index >=? cellCount) then
    Err (rangeOutOfBounds start_index stop_index cellCount name)
  else if (stop_index <=? start_index) || (stop_index >? cellCount) then
    Err (rangeOutOfBounds start_index stop_index cellCount name)
  else Ok (start_index, stop_index).

(** [handleToolCall] for a range tool, up to the point where the service
    method has its validated [{startIndex, stopIndex}]: parameter
    validation, then the service's active-editor check, then the callback
    applied to the live cell count. *)
Definition handleRangeToolCall (t : RangeTool) (a : RangeArgs)
  (activeNotebook : option NotebookDocument) : result (Z * Z) :=
  p <- validateToolParams (toolName t) a ;;
  match activeNotebook with
  | None => Err (noActiveNotebook (serviceOperation t))
  | Some nb =>
      validateRange (toolName t) (start_index p) (stop_index p) (cellCount nb)
  end.

End Dispatch.

(** ** notebook.ts: rendering of a cell ([isTextOutput], [showCell]) *)

Module Render.

Definition isTextOutput (mime : string) : bool :=
  String.prefix "text/" mime
  || String.eqb mime "application/vnd.code.notebook.stdout"
  || String.eqb mime "application/vnd.code.notebook.stderr"
  || String.eqb mime "application/json"
  || String.eqb mime "application/javascript".

Definition fence : string := "```".

(** [text.substring(0, k)] *)
Definition js_substring0 (s : string) (k : Z) : string :=
  String.substring 0 (Z.to_nat (Z.max 0 k)) s.

Fixpoint showItems (maxOutputSize : Z) (i : Z) (items : list OutputItem)
  : string :=
  match items with
  | [] => EmptyString
  | item :: rest =>
      let textContent := item_data item in
      let len := Z.of_nat (String.length textContent) in
      let here :=
        if isTextOutput (item_mime item) then
          if len >? maxOutputSize then
            Str.of_Z (i + 1) ++ ". Truncated text with MIME: " ++ item_mime item
            ++ ", full length: " ++ Str.of_Z len ++ " characters" ++ Str.nl
            ++ Str.nl ++ fence ++ Str.nl
            ++ js_substring0 textContent (maxOutputSize - 3) ++ "..." ++ Str.nl
            ++ fence ++ Str.nl ++ Str.nl
          else
            Str.of_Z (i + 1) ++ ". Text with MIME: " ++ item_mime item ++ Str.nl
            ++ Str.nl ++ fence ++ Str.nl ++ textContent ++ Str.nl ++ fence
            ++ Str.nl ++ Str.nl
        else
          Str.of_Z (i + 1) ++ ". (Not shown) " ++ Str.of_Z len
          ++ " bytes with MIME: " ++ item_mime item ++ Str.nl ++ Str.nl in
      here ++ showItems maxOutputSize (i + 1) rest
  end.

Definition showOutput (maxOutputSize : Z) (output : list OutputItem) : string :=
  "#### Output with " ++ Str.of_Z (Z.of_nat (List.length output)) ++ " items"
  ++ Str.nl ++ Str.nl ++ showItems maxOutputSize 0 output.

Definition showCell (cell : NotebookCell) (maxOutputSize : Z) : string :=
  let cellType := match cell_kind cell with Markup => "markdown" | Code => "code" end in
  let cellLanguageId := cell_languageId cell in
  let cellContent := cell_text cell in
  let header :=
    "## Cell " ++ Str.of_Z (cell_index cell) ++ " ("
    ++ (if isCode cell then cellType ++ ":" ++ cellLanguageId else cellType)
    ++ ")" ++ Str.nl ++ Str.nl in
  if isCode cell then
    let execLabel := match execOrder cell with
                     | Some n => Str.of_Z n
                     | None => " "
                     end in
    header ++ "### In [" ++ execLabel ++ "]:" ++ Str.nl ++ Str.nl ++ fence
    ++ cellLanguageId ++ Str.nl ++ cellContent ++ Str.nl ++ fence ++ Str.nl
    ++ Str.nl
    ++ match cell_outputs cell with
       | [] => EmptyString
       | outputs =>
           "### Out [" ++ execLabel ++ "]:" ++ Str.nl ++ Str.nl
           ++ Str.concat_all (map (showOutput maxOutputSize) outputs)
       end
  else
    header ++ fence ++ cellLanguageId ++ Str.nl ++ cellContent ++ Str.nl ++ fence
    ++ Str.nl ++ Str.nl.

(** The per-cell part of a report: [showCell(cell) + "---\n\n"] for each. *)
Definition showCells (cells : list NotebookCell) (maxOutputSize : Z) : string :=
  Str.concat_all
    (map (fun c => showCell c maxOutputSize ++ "---" ++ Str.nl ++ Str.nl) cells).

End Render.

(** ** notebook.ts / extension.ts: [executeNotebookCells]

    Time is not modelled as a clock: the host environment supplies the live
    state of the code cells at each check of the loop condition that
    happens before the deadline ([env_polls], in order), and their live
    state when the report is assembled ([env_final]).  An empty
    [env_polls] means the deadline had already passed at the first check
    (the clock starts before the awaited execute command). *)

Module Sync.

Inductive HostEvent :=
| SnapshotMarkers                  (* previousExecutionOrders filled *)
| ExecuteCommand (start end_ : Z)  (* "notebook.cell.execute" *)
| PollCells                        (* one pass over the live code cells *)
| Sleep (ms : Z).

Record ExecEnv := mkEnv {
  env_polls : list (list NotebookCell);
  env_final : list NotebookCell
}.

(** [Map<number, number | undefined>]: [set] replaces the entry of a key;
    [get] of a missing key and a stored [undefined] are both [None]. *)
Definition OrderMap := list (Z * option Z).

Definition map_set (m : OrderMap) (k : Z) (v : option Z) : OrderMap :=
  (k, v) :: filter (fun kv => negb (fst kv =? k)) m.

Fixpoint map_get (m : OrderMap) (k : Z) : option Z :=
  match m with
  | [] => None
  | (k', v) :: rest => if k' =? k then v else map_get rest k
  end.

Definition opt_eqb (a b : option Z) : bool :=
  match a, b with
  | Some x, Some y => x =? y
  | None, None => true
  | _, _ => false
  end.

Definition snapshot (codeCells : list NotebookCell) : OrderMap :=
  fold_left (fun m c => map_set m (cell_index c) (execOrder c)) codeCells [].

(** The [for (const cell of codeCells)] pass: [false] at the first
    non-empty cell whose marker still equals its snapshot ([break]). *)
Fixpoint cellsChanged (prev : OrderMap) (live : list NotebookCell) : bool :=
  match live with
  | [] => true
  | c :: rest =>
      if Str.trim_is_empty (cell_text c) then cellsChanged prev rest
      else if opt_eqb (execOrder c) (map_get prev (cell_index c)) then false
      else cellsChanged prev rest
  end.

(** The polling loop of notebook.ts: [allComplete = true] at the start of
    each iteration.  Returns the final [allComplete] and the host events. *)
Fixpoint pollLoop (prev : OrderMap) (polls : list (list NotebookCell))
  (executionComplete allComplete : bool) : bool * list HostEvent :=
  if executionComplete then (allComplete, []) else
  match polls with
  | [] => (allComplete, [])
  | live :: rest =>
      let allComplete := true in
      let allComplete := allComplete && cellsChanged prev live in
      if allComplete then
        let '(ac, tr) := pollLoop prev rest true allComplete in
        (ac, PollCells :: Sleep 500 :: tr)
      else
        let '(ac, tr) := pollLoop prev rest false allComplete in
        (ac, PollCells :: Sleep 200 :: tr)
  end.

(** The polling loop of extension.ts: [allComplete] is set to [true] once,
    before the loop, and only ever cleared inside it. *)
Fixpoint pollLoop_ext (prev : OrderMap) (polls : list (list NotebookCell))
  (executionComplete allComplete : bool) : bool * list HostEvent :=
  if executionComplete then (allComplete, []) else
  match polls with
  | [] => (allComplete, [])
  | live :: rest =>
      let allComplete := allComplete && cellsChanged prev live in
      if allComplete then
        let '(ac, tr) := pollLoop_ext prev rest true allComplete in
        (ac, PollCells :: Sleep 500 :: tr)
      else
        let '(ac, tr) := pollLoop_ext prev rest false allComplete in
        (ac, PollCells :: Sleep 200 :: tr)
  end.

Definition noCodeCellsReport (startIndex stopIndex : Z) : string :=
  "# Cell Execution" ++ Str.nl ++ Str.nl
  ++ "No code cells found in the specified range (" ++ Str.of_Z startIndex
  ++ "-" ++ Str.of_Z (stopIndex - 1) ++ ").".

Definition resultsHeader : string :=
  "# Cell Execution Results" ++ Str.nl ++ Str.nl.

Definition timeoutWarning (timeoutSeconds : Z) : string :=
  "> Mind that not all cells completed execution within "
  ++ Str.of_Z timeoutSeconds ++ " seconds!" ++ Str.nl.

Definition executedLine (n startIndex stopIndex : Z) : string :=
  "Executed " ++ Str.of_Z n ++ " code cells in range " ++ Str.of_Z startIndex
  ++ "-" ++ Str.of_Z (stopIndex - 1) ++ "." ++ Str.nl ++ Str.nl.

Definition report (allComplete : bool) (nCode startIndex stopIndex
  maxOutputSize timeoutSeconds : Z) (final : list NotebookCell) : string :=
  resultsHeader
  ++ (if negb allComplete then timeoutWarning timeoutSeconds else EmptyString)
  ++ executedLine nCode startIndex stopIndex
  ++ Render.showCells final maxOutputSize.

Definition codeCellsOf (cells : list NotebookCell) (startIndex stopIndex : Z)
  : list NotebookCell :=
  filter isCode (js_slice cells startIndex stopIndex).

(** [executeNotebookCells] of notebook.ts: the host events it causes and
    the string it returns. *)
Definition executeNotebookCells (cells : list NotebookCell)
  (startIndex stopIndex maxOutputSize timeoutSeconds : Z) (env : ExecEnv)
  : list HostEvent * string :=
  let codeCells := codeCellsOf cells startIndex stopIndex in
  if Nat.eqb (List.length codeCells) 0 then
    ([], noCodeCellsReport startIndex stopIndex)
  else
    let prev := snapshot codeCells in
    let '(allComplete, tr) := pollLoop prev (env_polls env) false true in
    (SnapshotMarkers :: ExecuteCommand startIndex stopIndex :: tr,
     report allComplete (Z.of_nat (List.length codeCells)) startIndex stopIndex
       maxOutputSize timeoutSeconds (env_final env)).

(** [executeNotebookCells] of extension.ts. *)
Definition executeNotebookCells_ext (cells : list NotebookCell)
  (startIndex stopIndex maxOutputSize timeoutSeconds : Z) (env : ExecEnv)
  : list HostEvent * string :=
  let codeCells := codeCellsOf cells startIndex stopIndex in
  if Nat.eqb (List.length codeCells) 0 then
    ([], noCodeCellsReport startIndex stopIndex)
  else
    let prev := snapshot codeCells in
    let '(allComplete, tr) := pollLoop_ext prev (env_polls env) false true in
    (SnapshotMarkers :: ExecuteCommand startIndex stopIndex :: tr,
     report allComplete (Z.of_nat (List.length codeCells)) startIndex stopIndex
       maxOutputSize timeoutSeconds (env_final env)).

End Sync.

(** ** notebook.ts: the cell data built by [insertCells] and [replaceCells] *)

Module Edit.

(** A cell definition received from the caller. *)
Record CellDefinition := mkDef {
  def_content : string;
  def_cell_type : option string;
  def_language_id : option string
}.

(** [vscode.NotebookCellData]; [data_metadata = None] is the default
    (no metadata copied). *)
Record NotebookCellData := mkData {
  data_kind : NotebookCellKind;
  data_value : string;
  data_languageId : string;
  data_metadata : option (list (string * string))
}.

(** JavaScript truthiness of an optional string. *)
Definition truthy (s : option string) : bool :=
  match s with
  | Some v => negb (String.eqb v EmptyString)
  | None => false
  end.

Definition or_empty (s : option string) : string :=
  match s with Some v => v | None => EmptyString end.

(** *** insertCells *)

(** The effective insertion position. *)
Definition insertPositionOf (insertPosition : option Z) (cellCount : Z) : Z :=
  match insertPosition with
  | Some p => Z.min (Z.max 0 p) cellCount
  | None => cellCount
  end.

Definition insertCellData (existing : list NotebookCell) (d : CellDefinition)
  : NotebookCellData :=
  let cellKind :=
    match def_cell_type d with
    | Some t => if String.eqb t "code" then Code else Markup
    | None => Markup
    end in
  let cellLanguageId :=
    match cellKind with
    | Markup => "markdown"
    | Code => if truthy (def_language_id d) then or_empty (def_language_id d)
              else EmptyString
    end in
  let cellLanguageId :=
    if kind_eqb cellKind Code && String.eqb cellLanguageId EmptyString
       && (0 <? Z.of_nat (List.length existing)) then
      let fromExisting :=
        match find isCode existing with
        | Some c => cell_languageId c
        | None => cellLanguageId
        end in
      if String.eqb fromExisting EmptyString then "python" else fromExisting
    else cellLanguageId in
  mkData cellKind (def_content d) cellLanguageId None.

(** [insertCells] up to the edit it applies: the position and the cells
    handed to [vscode.NotebookEdit.insertCells]. *)
Definition insertCells (cells : list CellDefinition) (insertPosition : option Z)
  (activeNotebook : option NotebookDocument)
  : result (Z * list NotebookCellData) :=
  match activeNotebook with
  | None => Err (noActiveNotebook "insertCells")
  | Some nb =>
      match cells with
      | [] => Err (validationError "cells array is required and must not be empty")
      | _ =>
          let position := insertPositionOf insertPosition (cellCount nb) in
          Ok (position, map (insertCellData (nb_cells nb)) cells)
      end
  end.

(** *** replaceCells *)

Definition kindFor (cellsToReplace : list NotebookCell) (iCell : nat)
  (d : CellDefinition) : result NotebookCellKind :=
  if truthy (def_cell_type d) then
    Ok (if String.eqb (or_empty (def_cell_type d)) "code" then Code else Markup)
  else
    let k := if Nat.ltb iCell (List.length cellsToReplace) then iCell else 0%nat in
    match nth_error cellsToReplace k with
    | Some c => Ok (cell_kind c)
    | None => Err (typeError "Cannot read properties of undefined (reading 'kind')")
    end.

Definition languageFor (cellsToReplace : list NotebookCell) (iCell : nat)
  (d : CellDefinition) (cellKind : NotebookCellKind) : result string :=
  match cellKind with
  | Markup =>
      match def_language_id d with
      | Some l =>
          if String.eqb l "markdown" then Ok "markdown"
          else Err (validationError "language_id must be 'markdown' for markdown cells")
      | None => Ok "markdown"
      end
  | Code =>
      if truthy (def_language_id d) then Ok (or_empty (def_language_id d))
      else
        match (if Nat.ltb iCell (List.length cellsToReplace)
               then nth_error cellsToReplace iCell else None) with
        | Some c =>
            if isCode c then Ok (cell_languageId c)
            else
              match find isCode cellsToReplace with
              | Some f => Ok (if String.eqb (cell_languageId f) EmptyString
                              then "python" else cell_languageId f)
              | None => Ok "python"
              end
        | None =>
            match find isCode cellsToReplace with
            | Some f => Ok (if String.eqb (cell_languageId f) EmptyString
                            then "python" else cell_languageId f)
            | None => Ok "python"
            end
        end
  end.

Definition replaceCellDataAt (cellsToReplace : list NotebookCell) (iCell : nat)
  (d : CellDefinition) : result NotebookCellData :=
  cellKind <- kindFor cellsToReplace iCell d ;;
  languageId <- languageFor cellsToReplace iCell d cellKind ;;
  let metadata :=
    if Nat.ltb iCell (List.length cellsToReplace) then
      match nth_error cellsToReplace iCell with
      | Some peer => if kind_eqb (cell_kind peer) cellKind
                     then Some (cell_metadata peer) else None
      | None => None
      end
    else None in
  Ok (mkData cellKind (def_content d) languageId metadata).

(** [cells.map((cellDefinition, iCell) => ...)]: the first thrown error
    aborts the map. *)
Fixpoint replaceCellDataFrom (cellsToReplace : list NotebookCell) (iCell : nat)
  (defs : list CellDefinition) : result (list NotebookCellData) :=
  match defs with
  | [] => Ok []
  | d :: rest =>
      cd <- replaceCellDataAt cellsToReplace iCell d ;;
      tl <- replaceCellDataFrom cellsToReplace (S iCell) rest ;;
      Ok (cd :: tl)
  end.

Definition replaceCellData (cellsToReplace : list NotebookCell)
  (defs : list CellDefinition) : result (list NotebookCellData) :=
  replaceCellDataFrom cellsToReplace 0 defs.

End Edit.

(** ** mcp-server.ts: the bounded body reader [parseRequestBody]

    The request stream is an external collaborator: it delivers events, and
    [req.readable] as the stream reports it when a handler runs is part of
    each delivered event. *)

Module Body.

Inductive EventName := EvData | EvEnd | EvError | EvClose.

Definition event_name_eqb (a b : EventName) : bool :=
  match a, b with
  | EvData, EvData | EvEnd, EvEnd | EvError, EvError | EvClose, EvClose => true
  | _, _ => false
  end.

Inductive StreamEvent :=
| Data (chunk : list Byte.byte)
| End
| Error
| Close.

Definition nameOf (e : StreamEvent) : EventName :=
  match e with
  | Data _ => EvData
  | End => EvEnd
  | Error => EvError
  | Close => EvClose
  end.

(** How the promise settles. *)
Inductive Settlement :=
| Resolved (body : list (list Byte.byte))
| Rejected (e : RooNotebookError).

(** The closure state of one [parseRequestBody] call, the listeners
    registered on [req], and the settlements delivered to the promise.
    [body] keeps the appended chunks in order ([body += chunk.toString()]). *)
Record ReaderState := mkReader {
  body : list (list Byte.byte);
  bodySize : Z;
  sizeExceeded : bool;
  resolved : bool;
  listeners : list EventName;
  settled : list Settlement
}.

Definition initial : ReaderState :=
  mkReader [] 0 false false [EvError; EvData; EvEnd; EvClose] [].

(** [cleanup]: remove the data, end and error listeners if the request is
    still readable. *)
Definition cleanup (readable : bool) (s : ReaderState) : ReaderState :=
  if readable then
    {| body := body s; bodySize := bodySize s; sizeExceeded := sizeExceeded s;
       resolved := resolved s;
       listeners := filter (fun n => event_name_eqb n EvClose) (listeners s);
       settled := settled s |}
  else s.

Definition settle (readable : bool) (v : Settlement) (s : ReaderState)
  : ReaderState :=
  if resolved s then s
  else
    let s := {| body := body s; bodySize := bodySize s;
                sizeExceeded := sizeExceeded s; resolved := true;
                listeners := listeners s; settled := settled s |} in
    let s := cleanup readable s in
    {| body := body s; bodySize := bodySize s; sizeExceeded := sizeExceeded s;
       resolved := resolved s; listeners := listeners s;
       settled := settled s ++ [v] |}.

(** [safeResolve] and [safeReject] *)
Definition safeResolve (readable : bool) (v : list (list Byte.byte)) :=
  settle readable (Resolved v).
Definition safeReject (readable : bool) (e : RooNotebookError) :=
  settle readable (Rejected e).

Definition tooLarge (bodySize maxSize : Z) : RooNotebookError :=
  mcpServerError ("Request too large: " ++ Str.of_Z bodySize ++ " bytes (max: "
                  ++ Str.of_Z maxSize ++ ")").

Definition onData (maxSize : Z) (readable : bool) (chunk : list Byte.byte)
  (s : ReaderState) : ReaderState :=
  if resolved s then s
  else
    let size := bodySize s + Z.of_nat (List.length chunk) in
    let s := {| body := body s; bodySize := size; sizeExceeded := sizeExceeded s;
                resolved := resolved s; listeners := listeners s;
                settled := settled s |} in
    if size >? maxSize then
      if sizeExceeded s then s
      else
        let s := {| body := body s; bodySize := bodySize s;
                    sizeExceeded := true; resolved := resolved s;
                    listeners := listeners s; settled := settled s |} in
        safeReject readable (tooLarge size maxSize) s
    else
      {| body := body s ++ [chunk]; bodySize := bodySize s;
         sizeExceeded := sizeExceeded s; resolved := resolved s;
         listeners := listeners s; settled := settled s |}.

Definition onEnd (readable : bool) (s : ReaderState) : ReaderState :=
  if negb (sizeExceeded s) && negb (resolved s) then safeResolve readable (body s) s
  else s.

Definition onError (readable : bool) (s : ReaderState) : ReaderState :=
  safeReject readable (mcpServerError "Request stream error") s.

Definition onClose (readable : bool) (s : ReaderState) : ReaderState :=
  if negb (resolved s) then safeReject readable (mcpServerError "Request closed by client") s
  else s.

(** Delivery of one event: the handler runs only if its listener is still
    registered. *)
Definition deliver (maxSize : Z) (s : ReaderState) (ev : bool * StreamEvent)
  : ReaderState :=
  let '(readable, e) := ev in
  if existsb (event_name_eqb (nameOf e)) (listeners s) then
    match e with
    | Data chunk => onData maxSize readable chunk s
    | End => onEnd readable s
    | Error => onError readable s
    | Close => onClose readable s
    end
  else s.

Definition run (maxSize : Z) (events : list (bool * StreamEvent)) : ReaderState :=
  fold_left (deliver maxSize) events initial.

End Body.

(** ** notebook.ts: [NotebookService] against the host *)

Module Service.

Import Edit.

(** What the service asks of the host. *)
Inductive HostCall :=
| ApplyInsert (position : Z) (cells : list NotebookCellData)
| ApplyReplace (startIndex stopIndex : Z) (cells : list NotebookCellData)
| ApplyDelete (startIndex stopIndex : Z)
| Execution (events : list Sync.HostEvent)
| SaveUri (uri : string)
| RunCommand (command : string).

(** The host as the service sees it: the active notebook editor's
    document, if any, and the calls made so far. *)
Record World := mkWorld {
  activeNotebook : option NotebookDocument;
  calls : list HostCall
}.

Inductive Operation :=
| GetNotebookInfo
| GetCells (maxOutputSize : Z)
| InsertCells (cells : list CellDefinition) (insertPosition : option Z)
    (noexec : bool) (maxOutputSize timeoutSeconds : Z)
| ReplaceCells (validateIndicesAndCells : Z -> result (Z * Z * list CellDefinition))
    (noexec : bool) (maxOutputSize timeoutSeconds : Z)
| ModifyCellContent (validateCellIndex : Z -> result Z) (content : string)
    (noexec : bool) (maxOutputSize timeoutSeconds : Z)
| ExecuteCells (validateIndices : Z -> result (Z * Z))
    (maxOutputSize timeoutSeconds : Z)
| DeleteCells (validateIndices : Z -> result (Z * Z))
| SaveNotebook
| RestartKernel
| InterruptKernel.

(** The cells of the document after an edit: fresh cells from the cell
    data, and every [index] recomputed. *)
Definition materialize (d : NotebookCellData) : NotebookCell :=
  mkCell 0 (data_kind d) (data_languageId d) (data_value d) None []
    (match data_metadata d with Some m => m | None => [] end).

Fixpoint reindexFrom (i : Z) (cells : list NotebookCell) : list NotebookCell :=
  match cells with
  | [] => []
  | c :: rest =>
      mkCell i (cell_kind c) (cell_languageId c) (cell_text c)
        (cell_executionSummary c) (cell_outputs c) (cell_metadata c)
      :: reindexFrom (i + 1) rest
  end.

Definition spliceCells (cells : list NotebookCell) (startIndex stopIndex : Z)
  (inserted : list NotebookCellData) : list NotebookCell :=
  reindexFrom 0 (firstn (Z.to_nat startIndex) cells ++ map materialize inserted
                 ++ skipn (Z.to_nat stopIndex) cells).

Definition withCells (nb : NotebookDocument) (cells : list NotebookCell)
  : NotebookDocument :=
  mkDoc (nb_uri nb) (nb_notebookType nb) true (nb_kernelspec nb) cells.

Definition noActiveInfo : string :=
  "# Notebook Information" ++ Str.nl ++ Str.nl ++ "No active notebook found.".

(** [languageCounts] in insertion order. *)
Fixpoint bumpLanguage (l : string) (counts : list (string * Z))
  : list (string * Z) :=
  match counts with
  | [] => [(l, 1)]
  | (k, n) :: rest =>
      if String.eqb k l then (k, n + 1) :: rest else (k, n) :: bumpLanguage l rest
  end.

Definition languageCounts (cells : list NotebookCell) : list (string * Z) :=
  fold_left (fun acc c => if isCode c then bumpLanguage (cell_languageId c) acc else acc)
    cells [].

Definition countWhere (p : NotebookCell -> bool) (cells : list NotebookCell) : Z :=
  Z.of_nat (List.length (filter p cells)).

Definition notebookInfo (nb : NotebookDocument) : string :=
  let cells := nb_cells nb in
  let bullet k v := "- **" ++ k ++ "**: " ++ v ++ Str.nl in
  "# Notebook Information" ++ Str.nl ++ Str.nl
  ++ "## Basic Information" ++ Str.nl
  ++ bullet "URI" (nb_uri nb)
  ++ bullet "Notebook Type" (nb_notebookType nb)
  ++ bullet "Dirty?" (if nb_isDirty nb then "true" else "false")
  ++ match nb_kernelspec nb with
     | Some ks => bullet "Kernel Language" (ks_language ks)
                  ++ bullet "Kernel" (ks_display_name ks ++ " (" ++ ks_name ks ++ ")")
     | None => EmptyString
     end
  ++ Str.nl
  ++ "## Cell Statistics" ++ Str.nl
  ++ bullet "Total Cells" (Str.of_Z (cellCount nb))
  ++ bullet "Markdown Cells" (Str.of_Z (countWhere (fun c => negb (isCode c)) cells))
  ++ bullet "Code Cells" (Str.of_Z (countWhere isCode cells))
  ++ bullet "Executed Code Cells"
       (Str.of_Z (countWhere (fun c => isCode c &&
                    match cell_executionSummary c with Some _ => true | None => false end)
                  cells))
  ++ Str.nl
  ++ match languageCounts cells with
     | [] => EmptyString
     | counts =>
         "## Language Distribution" ++ Str.nl
         ++ Str.concat_all (map (fun kv => "- **" ++ fst kv ++ "**: "
                                           ++ Str.of_Z (snd kv) ++ " cells" ++ Str.nl)
                                counts)
     end.

Definition getCellsReport (cells : list NotebookCell) (maxOutputSize : Z) : string :=
  match cells with
  | [] => "# Notebook Analysis" ++ Str.nl ++ Str.nl
          ++ "The notebook is empty - it contains no cells."
  | _ => "# Notebook Analysis" ++ Str.nl ++ Str.nl ++ "Notebook contains "
         ++ Str.of_Z (Z.of_nat (List.length cells)) ++ " cells:" ++ Str.nl ++ Str.nl
         ++ Render.showCells cells maxOutputSize
  end.

Definition plural (n : Z) : string := if n =? 1 then EmptyString else "s".

(** [replaceCells] once the active editor's document [nb] is known. *)
Definition replaceCellsOn (env : Sync.ExecEnv)
  (validateIndicesAndCells : Z -> result (Z * Z * list CellDefinition))
  (noexec : bool) (maxOutputSize timeoutSeconds : Z) (nb : NotebookDocument)
  (w : World) : result string * World :=
  let existingCells := nb_cells nb in
  match validateIndicesAndCells (cellCount nb) with
  | Err e => (Err e, w)
  | Ok (startIndex, stopIndex, cells) =>
      let cellsToReplace := js_slice existingCells startIndex stopIndex in
      match replaceCellData cellsToReplace cells with
      | Err e => (Err e, w)
      | Ok cellDataArray =>
          let nb' := withCells nb (spliceCells existingCells startIndex stopIndex
                                     cellDataArray) in
          let w1 := mkWorld (Some nb')
                      (calls w ++ [ApplyReplace startIndex stopIndex cellDataArray]) in
          let n := Z.of_nat (List.length cellDataArray) in
          let res := "Successfully replaced " ++ Str.of_Z (stopIndex - startIndex)
                     ++ " cells with " ++ Str.of_Z n ++ " new cells." in
          if noexec then (Ok res, w1)
          else
            let '(tr, executionResult) :=
              Sync.executeNotebookCells (nb_cells nb') startIndex (startIndex + n)
                maxOutputSize timeoutSeconds env in
            (Ok (res ++ Str.nl ++ Str.nl ++ executionResult),
             mkWorld (Some nb') (calls w1 ++ [Execution tr]))
      end
  end.

(** One [NotebookService] call: its result and the host afterwards.  The
    [env] gives what the kernel does while the call polls. *)
Definition runOp (env : Sync.ExecEnv) (op : Operation) (w : World)
  : result string * World :=
  match op with
  | GetNotebookInfo =>
      match activeNotebook w with
      | None => (Ok noActiveInfo, w)
      | Some nb => (Ok (notebookInfo nb), w)
      end
  | GetCells maxOutputSize =>
      match activeNotebook w with
      | None => (Err (noActiveNotebook "getCells"), w)
      | Some nb => (Ok (getCellsReport (nb_cells nb) maxOutputSize), w)
      end
  | InsertCells cells insertPosition noexec maxOutputSize timeoutSeconds =>
      match activeNotebook w with
      | None => (Err (noActiveNotebook "insertCells"), w)
      | Some nb =>
          match insertCells cells insertPosition (Some nb) with
          | Err e => (Err e, w)
          | Ok (position, cellDataArray) =>
              let nb' := withCells nb (spliceCells (nb_cells nb) position position
                                         cellDataArray) in
              let w1 := mkWorld (Some nb')
                          (calls w ++ [ApplyInsert position cellDataArray]) in
              let n := Z.of_nat (List.length cellDataArray) in
              let res := "Successfully inserted " ++ Str.of_Z n
                         ++ " new cells at position " ++ Str.of_Z position ++ "." in
              if noexec then (Ok res, w1)
              else
                let '(tr, executionResult) :=
                  Sync.executeNotebookCells (nb_cells nb') position (position + n)
                    maxOutputSize timeoutSeconds env in
                (Ok (res ++ Str.nl ++ Str.nl ++ executionResult),
                 mkWorld (Some nb') (calls w1 ++ [Execution tr]))
          end
      end
  | ReplaceCells validate noexec maxOutputSize timeoutSeconds =>
      match activeNotebook w with
      | None => (Err (noActiveNotebook "replaceCells"), w)
      | Some nb => replaceCellsOn env validate noexec maxOutputSize timeoutSeconds nb w
      end
  | ModifyCellContent validateCellIndex content noexec maxOutputSize timeoutSeconds =>
      match activeNotebook w with
      | None => (Err (noActiveNotebook "modifyCellContent"), w)
      | Some nb =>
          let callback n :=
            cellIndex <- validateCellIndex n ;;
            Ok (cellIndex, cellIndex + 1, [mkDef content None None]) in
          match replaceCellsOn env callback true maxOutputSize timeoutSeconds nb w with
          | (Err e, w1) => (Err e, w1)
          | (Ok _, w1) =>
              let cellIndex :=
                match validateCellIndex (cellCount nb) with Ok i => i | Err _ => 0 end in
              let res := "Successfully modified cell at index " ++ Str.of_Z cellIndex
                         ++ " with new content." in
              if noexec then (Ok res, w1)
              else
                let cells' := match activeNotebook w1 with
                              | Some nb1 => nb_cells nb1
                              | None => []
                              end in
                let '(tr, executionResult) :=
                  Sync.executeNotebookCells cells' cellIndex (cellIndex + 1)
                    maxOutputSize timeoutSeconds env in
                (Ok (res ++ Str.nl ++ Str.nl ++ executionResult),
                 mkWorld (activeNotebook w1) (calls w1 ++ [Execution tr]))
          end
      end
  | ExecuteCells validateIndices maxOutputSize timeoutSeconds =>
      (* What the kernel does to the cells (outputs, execution summaries)
         happens in the host; it is recorded in the [Execution] trace,
         and the document held here is left as it was. *)
      match activeNotebook w with
      | None => (Err (noActiveNotebook "executeCells"), w)
      | Some nb =>
          match validateIndices (cellCount nb) with
          | Err e => (Err e, w)
          | Ok (startIndex, stopIndex) =>
              let '(tr, res) :=
                Sync.executeNotebookCells (nb_cells nb) startIndex stopIndex
                  maxOutputSize timeoutSeconds env in
              (Ok res, mkWorld (Some nb) (calls w ++ [Execution tr]))
          end
      end
  | DeleteCells validateIndices =>
      match activeNotebook w with
      | None => (Err (noActiveNotebook "deleteCells"), w)
      | Some nb =>
          match validateIndices (cellCount nb) with
          | Err e => (Err e, w)
          | Ok (startIndex, stopIndex) =>
              let deleteCount := stopIndex - startIndex in
              let nb' := withCells nb (spliceCells (nb_cells nb) startIndex stopIndex []) in
              (Ok ("Successfully deleted " ++ Str.of_Z deleteCount ++ " cell"
                   ++ plural deleteCount ++ " from index " ++ Str.of_Z startIndex
                   ++ " to " ++ Str.of_Z (stopIndex - 1) ++ "."),
               mkWorld (Some nb') (calls w ++ [ApplyDelete startIndex stopIndex]))
          end
      end
  | SaveNotebook =>
      (* [nb.save()] is taken to succeed; the host then reports the
         document as not dirty. *)
      match activeNotebook w with
      | None => (Err (noActiveNotebook "saveNotebook"), w)
      | Some nb =>
          (Ok ("Successfully saved notebook: " ++ nb_uri nb),
           mkWorld (Some (mkDoc (nb_uri nb) (nb_notebookType nb) false
                            (nb_kernelspec nb) (nb_cells nb)))
             (calls w ++ [SaveUri (nb_uri nb)]))
      end
  | RestartKernel =>
      match activeNotebook w with
      | None => (Err (noActiveNotebook "restartKernel"), w)
      | Some nb =>
          (Ok ("Successfully restarted kernel for notebook: " ++ nb_uri nb),
           mkWorld (Some nb) (calls w ++ [RunCommand "jupyter.restartkernel"]))
      end
  | InterruptKernel =>
      match activeNotebook w with
      | None => (Err (noActiveNotebook "interruptKernel"), w)
      | Some nb =>
          (Ok ("Successfully interrupted kernel execution for notebook: " ++ nb_uri nb),
           mkWorld (Some nb) (calls w ++ [RunCommand "jupyter.interruptkernel"]))
      end
  end.

End Service.

(** ** errors.ts: [ConfigValidator]

    What [config.get] returns for a numeric setting: a JavaScript number
    (a finite one, modelled by the rational it denotes, as every finite
    double is one; [Infinity]; [-Infinity]; [NaN]) or a value whose
    [typeof] is not ['number'].  A missing key makes [config.get] return
    the default, which then goes through the bound checks like a stored
    value. *)

Module Config.

Inductive ConfigValue :=
| Num (q : Q)
| PosInfinity
| NegInfinity
| NaN
| NotANumber.

(** [value < min] and [value > max] on a number that is not [NaN]. *)
Definition js_lt (v : ConfigValue) (m : Q) : bool :=
  match v with
  | Num q => negb (Qle_bool m q)
  | NegInfinity => true
  | _ => false
  end.

Definition js_gt (v : ConfigValue) (m : Q) : bool :=
  match v with
  | Num q => negb (Qle_bool q m)
  | PosInfinity => true
  | _ => false
  end.

(** [getNumericConfig]: the minimum is checked first, then the maximum. *)
Definition getNumericConfig (stored : option ConfigValue) (defaultValue : Q)
  (min max : option Q) : ConfigValue :=
  let value := match stored with Some v => v | None => Num defaultValue end in
  match value with
  | NaN | NotANumber => Num defaultValue
  | _ =>
      let checkMax :=
        match max with
        | Some mx => if js_gt value mx then Num mx else value
        | None => value
        end in
      match min with
      | Some mn => if js_lt value mn then Num mn else checkMax
      | None => checkMax
      end
  end.

(** [getNotebookSettings]: [(maxOutputSize, timeoutSeconds)]. *)
Definition getNotebookSettings (maxOutputSize timeoutSeconds : option ConfigValue)
  : ConfigValue * ConfigValue :=
  (getNumericConfig maxOutputSize 2000%Q (Some 100%Q) (Some 50000%Q),
   getNumericConfig timeoutSeconds 30%Q (Some 5%Q) (Some 300%Q)).

(** [getMCPSettings]: [(requestTimeoutSeconds, maxRequestSizeMB)]. *)
Definition getMCPSettings (requestTimeoutSeconds maxRequestSizeMB : option ConfigValue)
  : ConfigValue * ConfigValue :=
  (getNumericConfig requestTimeoutSeconds 600%Q (Some 30%Q) (Some 3600%Q),
   getNumericConfig maxRequestSizeMB 10%Q (Some 1%Q) (Some 100%Q)).

(** The notebook settings as the service's integer parameters.  Both are
    finite after [getNotebookSettings].  Integer settings, as package.json
    declares them (["type": "integer"]), pass unchanged.  For a fractional
    [maxOutputSize], [showCell]'s two uses ([length > maxOutputSize] with
    an integer length, and [substring(0, maxOutputSize - 3)], whose
    argument [substring] truncates) agree with its floor; a fractional
    [timeoutSeconds] would be printed with its fraction in the timeout
    warning, which this integer view does not keep. *)
Definition toInteger (v : ConfigValue) : Z :=
  match v with
  | Num q => Qfloor q
  | _ => 0
  end.

End Config.

(** ** errors.ts: [ErrorFormatter.forUser] on the errors modelled here *)

Module Format.

Definition forUser (e : RooNotebookError) : string :=
  match err_code e with
  | NO_ACTIVE_NOTEBOOK => "No notebook is currently open. Please open a notebook first."
  | INDEX_OUT_OF_BOUNDS =>
      match ctx_cellIndex (err_context e), ctx_cellCount (err_context e) with
      | Some cellIndex, Some cellCount =>
          "Cell index " ++ Str.of_Z cellIndex ++ " is invalid. Valid range is 0-"
          ++ Str.of_Z (cellCount - 1) ++ "."
      | _, _ => "The specified cell index is out of bounds."
      end
  | MCP_SERVER_START_FAILED =>
      "Failed to start the MCP server. Please check the extension settings."
  | JS_TYPE_ERROR => err_message e
  | _ =>
      if String.eqb (err_message e) EmptyString
      then "An error occurred while processing your request."
      else err_message e
  end.

End Format.

(** ** mcp-server.ts: the [switch] of [handleToolCall] and the
    [CallToolRequestSchema] handler around it *)

Module Tools.

Import Edit Service.

(** The parameters returned by [validateToolParams], as the cases
    destructure them; a case reads only its own fields. *)
Record ToolParams := mkParams {
  p_start_index : Z;
  p_stop_index : Z;
  p_cells : list CellDefinition;
  p_insert_position : option Z;
  p_cell_index : Z;
  p_content : string;
  p_noexec : option bool;
  p_path : string
}.

(** [noexec || false] *)
Definition noexecOf (p : ToolParams) : bool :=
  match p_noexec p with Some b => b | None => false end.

(** The callback of ['replace_notebook_cells']. *)
Definition validateIndicesAndCells (toolName : string) (start_index stop_index : Z)
  (cells : list CellDefinition) (cellCount : Z) : result (Z * Z * list CellDefinition) :=
  if (start_index <? 0) || (start_index >=? cellCount) then
    Err (rangeOutOfBounds start_index stop_index cellCount toolName)
  else if (stop_index <=? start_index) || (stop_index >? cellCount) then
    Err (rangeOutOfBounds start_index stop_index cellCount toolName)
  else Ok (start_index, stop_index, cells).

(** The callback of ['modify_notebook_cell_content']. *)
Definition validateCellIndex (toolName : string) (cell_index cellCount : Z) : result Z :=
  if (cell_index <? 0) || (cell_index >=? cellCount) then
    Err (indexOutOfBounds cell_index (cellCount - 1) toolName)
  else Ok cell_index.

(** The notebook URI of ['open_notebook']: [vscode.Uri.file] of an absolute
    path, or [vscode.Uri.joinPath] on the single workspace folder. *)
Inductive NotebookUri :=
| FileUri (path : string)
| JoinedUri (folder path : string).

Definition notebookUriOf (isAbsolute : string -> bool) (workspaceFolders : list string)
  (notebookPath : string) : result NotebookUri :=
  if isAbsolute notebookPath then Ok (FileUri notebookPath)
  else
    match workspaceFolders with
    | [] => Err (validationError
                   "No workspace open. Please use an absolute path or open a workspace.")
    | [folder] => Ok (JoinedUri folder notebookPath)
    | _ => Err (validationError
                  "Multiple workspace folders detected. Please use an absolute path to specify which notebook to open.")
    end.

(** What a case hands on: a [NotebookService] call, or the document the
    host is asked to open. *)
Inductive ToolAction :=
| CallService (op : Operation)
| OpenNotebook (uri : NotebookUri).

Definition toolAction (toolName : string) (p : ToolParams)
  (maxOutputSize timeoutSeconds : Z) (isAbsolute : string -> bool)
  (workspaceFolders : list string) : result ToolAction :=
  if String.eqb toolName "get_notebook_info" then Ok (CallService GetNotebookInfo)
  else if String.eqb toolName "get_notebook_cells" then
    Ok (CallService (GetCells maxOutputSize))
  else if String.eqb toolName "insert_notebook_cells" then
    Ok (CallService (InsertCells (p_cells p) (p_insert_position p) (noexecOf p)
                       maxOutputSize timeoutSeconds))
  else if String.eqb toolName "replace_notebook_cells" then
    Ok (CallService (ReplaceCells
                       (validateIndicesAndCells toolName (p_start_index p)
                          (p_stop_index p) (p_cells p))
                       (noexecOf p) maxOutputSize timeoutSeconds))
  else if String.eqb toolName "modify_notebook_cell_content" then
    Ok (CallService (ModifyCellContent (validateCellIndex toolName (p_cell_index p))
                       (p_content p) (noexecOf p) maxOutputSize timeoutSeconds))
  else if String.eqb toolName "execute_notebook_cells" then
    Ok (CallService (ExecuteCells
                       (Dispatch.validateRange toolName (p_start_index p) (p_stop_index p))
                       maxOutputSize timeoutSeconds))
  else if String.eqb toolName "delete_notebook_cells" then
    Ok (CallService (DeleteCells
                       (Dispatch.validateRange toolName (p_start_index p) (p_stop_index p))))
  else if String.eqb toolName "save_notebook" then Ok (CallService SaveNotebook)
  else if String.eqb toolName "open_notebook" then
    uri <- notebookUriOf isAbsolute workspaceFolders (p_path p) ;;
    Ok (OpenNotebook uri)
  else Err (toolError toolName ("Unknown tool: " ++ toolName)).

(** The outcome of [handleToolCall]: finished with a result and the host
    afterwards, or waiting on the host to open a document. *)
Inductive ToolOutcome :=
| Done (r : result string) (w : World)
| Opening (uri : NotebookUri).

(** [handleToolCall] after [validateToolParams]: the settings are read
    from the configuration first. *)
Definition handleToolCall (env : Sync.ExecEnv)
  (maxOutputSizeSetting timeoutSecondsSetting : option Config.ConfigValue)
  (isAbsolute : string -> bool) (workspaceFolders : list string)
  (toolName : string) (p : ToolParams) (w : World) : ToolOutcome :=
  let '(maxOutputSize, timeoutSeconds) :=
    Config.getNotebookSettings maxOutputSizeSetting timeoutSecondsSetting in
  match toolAction toolName p (Config.toInteger maxOutputSize)
          (Config.toInteger timeoutSeconds) isAbsolute workspaceFolders with
  | Err e => Done (Err e) w
  | Ok (CallService op) =>
      let '(r, w') := runOp env op w in Done r w'
  | Ok (OpenNotebook uri) => Opening uri
  end.

(** The [CallToolRequestSchema] handler turns a thrown error into an
    [isError] text; [error.constructor.name] is [RooNotebookError] for
    the factories' errors. *)
Record ToolResponse := mkResponse {
  resp_text : string;
  resp_isError : bool
}.

Definition constructorName (e : RooNotebookError) : string :=
  match err_code e with
  | JS_TYPE_ERROR => "TypeError"
  | _ => "RooNotebookError"
  end.

Definition toolResponse (r : result string) : ToolResponse :=
  match r with
  | Ok text => mkResponse text false
  | Err e => mkResponse ("Error [" ++ constructorName e ++ "]: " ++ err_message e) true
  end.

End Tools.

(** ** mcp-server.ts: [handleHttpRequest]

    The request body goes through the [Body] reader; the events are those
    the stream delivers before the request timeout.  If none of them
    settles the reader, the [await] never returns and the timer's 408 is
    the response.  Decoding the chunks and [JSON.parse] are the host's
    ([parseJson]); [transport] is [None] before the transport is
    initialized, else whether its [handleRequest] returns normally. *)

Module Http.

Section Handler.

Variable Json : Type.
Variable parseJson : list (list Byte.byte) -> option Json.
Variable idOf : Json -> option Json.

(** The payload written with [res.end]. *)
Inductive Payload :=
| NoPayload
| Text (s : string)
| RpcError (code : Z) (message : string) (id : option Json).

Inductive Outcome :=
| Reply (status : Z) (contentType : string) (payload : Payload)
| HandledByTransport (requestBody : Json).

Definition handleHttpRequest (transport : option (Json -> bool)) (method url : string)
  (maxSize : Z) (events : list (bool * Body.StreamEvent)) : Outcome :=
  if String.eqb method "OPTIONS" then Reply 200 "application/json" NoPayload
  else if negb (String.eqb url "/mcp") then Reply 404 "text/plain" (Text "Not Found")
  else if negb (String.eqb method "POST") then
    Reply 405 "text/plain" (Text "Method not allowed")
  else
    match Body.settled (Body.run maxSize events) with
    | [] => Reply 408 "text/plain" (Text "Request timeout")
    | Body.Rejected _ :: _ =>
        Reply 400 "application/json" (RpcError (-32700) "Request body parse error" None)
    | Body.Resolved body :: _ =>
        match parseJson body with
        | None => Reply 400 "application/json" (RpcError (-32700) "Parse error" None)
        | Some requestBody =>
            match transport with
            | None => Reply 500 "text/plain" (Text "Internal Server Error")
            | Some handleRequest =>
                if handleRequest requestBody then HandledByTransport requestBody
                else Reply 500 "application/json"
                       (RpcError (-32603) "Internal error" (idOf requestBody))
            end
        end
    end.

End Handler.

Arguments NoPayload {Json}.
Arguments Text {Json} s.
Arguments RpcError {Json} code message id.
Arguments Reply {Json} status contentType payload.
Arguments HandledByTransport {Json} requestBody.

End Http.

(** ** Concrete notebooks used by the examples below *)

Module Samples.

Definition codeCell (i : Z) (text : string) (order : option Z) : NotebookCell :=
  mkCell i Code "python" text
    (match order with Some _ => Some (mkSummary order) | None => None end) [] [].

Definition mdCell (i : Z) (text : string) : NotebookCell :=
  mkCell i Markup "markdown" text None [] [].

Definition doc (cells : list NotebookCell) : NotebookDocument :=
  mkDoc "file:///nb.ipynb" "jupyter-notebook" false None cells.

Definition cells3 : list NotebookCell :=
  [codeCell 0 "x = 1" (Some 1); mdCell 1 "# notes"; codeCell 2 "print(x)" (Some 2)].

Definition doc3 : NotebookDocument := doc cells3.

(** The input at which the two loops disagree: one non-empty code cell with
    no marker yet; the first check still sees no marker, the second sees
    marker 1. *)
Definition lateCell : NotebookCell := codeCell 0 "x = 1" None.
Definition doneCell : NotebookCell := codeCell 0 "x = 1" (Some 1).
Definition lateEnv : Sync.ExecEnv := Sync.mkEnv [[lateCell]; [doneCell]] [doneCell].

Definition juliaRange : list NotebookCell :=
  [mdCell 4 "# intro"; mkCell 5 Code "julia" "x = 2" None [] []].

(** The UTF-8 text of U+00A0, a space, a tab and U+3000: white space only
    for [trim()]. *)
Definition unicodeBlank : string :=
  String (ascii_of_nat 194) (String (ascii_of_nat 160)
  (String " " (String (ascii_of_nat 9)
  (String (ascii_of_nat 227) (String (ascii_of_nat 128)
  (String (ascii_of_nat 128) EmptyString)))))).

End Samples.

(** ** The claims' own vocabulary, written from the spec's words *)

Module SpecWords.

Import Edit.

(** The clamp of the claim: [clamp(x, lo, hi)]. *)
Definition clamp (x lo hi : Z) : Z :=
  if x <? lo then lo else if hi <? x then hi else x.

(** The three tiers of the claim, written from its words: the positional
    peer if it is a code cell, else the first code cell of the replaced
    range, else "python". *)
Definition threeTierLanguage (cellsToReplace : list NotebookCell) (i : nat) : string :=
  let firstOrDefault :=
    match find isCode cellsToReplace with
    | Some f => cell_languageId f
    | None => "python"
    end in
  match nth_error cellsToReplace i with
  | Some c => if isCode c then cell_languageId c else firstOrDefault
  | None => firstOrDefault
  end.

(** Chunks delivered as data events, each with the stream's [readable]
    flag at delivery, and their cumulative byte count. *)
Definition dataEvents (chunks : list (bool * list Byte.byte))
  : list (bool * Body.StreamEvent) :=
  map (fun rc => (fst rc, Body.Data (snd rc))) chunks.

Definition sumLen (chunks : list (bool * list Byte.byte)) : Z :=
  fold_right (fun rc acc => Z.of_nat (List.length (snd rc)) + acc) 0 chunks.

(** A terminal event of the stream: end, error or close. *)
Definition isTerminal (ev : bool * Body.StreamEvent) : bool :=
  match snd ev with
  | Body.Data _ => false
  | _ => true
  end.

End SpecWords.

(** Quantities the later facts are stated with. *)
Module Measures.

Import Sync.


(** The host events of [k] polling passes that did not see every cell
    changed: a poll, then [sleep(200)]. *)
Fixpoint waits (k : nat) : list HostEvent :=
  match k with O => [] | S k => PollCells :: Sleep 200 :: waits k end.

End Measures.

(** * Theorems *)

Ltac zcases :=
  repeat match goal with
  | |- context [?a <? ?b] => destruct (Z.ltb_spec a b)
  | |- context [?a <=? ?b] => destruct (Z.leb_spec a b)
  | |- context [?a >=? ?b] => rewrite (Z.geb_leb a b)
  | |- context [?a >? ?b] => rewrite (Z.gtb_ltb a b)
  end.

Module RangeFacts.

Import Dispatch Samples.

Example schema_rejects_negative_start :
  handleRangeToolCall ExecuteTool (mkArgs (-1) 1) (Some doc3)
  = Err (validationError
           "Invalid parameters for execute_notebook_cells: start_index: Number must be greater than or equal to 0").
Proof. reflexivity. Qed.

Lemma validateRange_ok name s t n :
  0 <= s -> s < t -> t <= n -> validateRange name s t n = Ok (s, t).
Proof.
  intros. unfold validateRange. zcases; simpl; try lia; reflexivity.
Qed.

Lemma validateRange_err name s t n :
  ~ (0 <= s /\ s < t /\ t <= n) ->
  validateRange name s t n = Err (rangeOutOfBounds s t n name).
Proof.
  intros H. unfold validateRange. zcases; simpl; try reflexivity; lia.
Qed.

Lemma schema_nonneg name s t :
  0 <= s -> 0 <= t -> validateToolParams name (mkArgs s t) = Ok (mkArgs s t).
Proof.
  intros. unfold validateToolParams, schemaIssues. simpl. zcases; try lia. reflexivity.
Qed.

Lemma schema_negative name s t :
  s < 0 \/ t < 0 ->
  exists e, validateToolParams name (mkArgs s t) = Err e /\ err_code e = VALIDATION_ERROR.
Proof.
  intros H. unfold validateToolParams, schemaIssues. simpl.
  zcases; simpl; try lia; eexists; split; reflexivity.
Qed.

(** Claim C1, as stated, fails: on the MCP path a negative [start_index]
    never reaches the range check; the parameter schema
    ([minimum: 0]) refuses it with a validation error, which carries no
    range context. *)
Lemma C1_negative_start_counterexample :
  exists e, handleRangeToolCall ExecuteTool (mkArgs (-1) 1) (Some doc3) = Err e
    /\ err_code e = VALIDATION_ERROR
    /\ e <> rangeOutOfBounds (-1) 1 (cellCount doc3) "execute_notebook_cells".
Proof.
  eexists. split; [reflexivity|]. split; [reflexivity|].
  intros H. discriminate H.
Qed.

(** C1 (amended): for each of replace_notebook_cells,
    execute_notebook_cells and delete_notebook_cells, with an active
    notebook of [n] cells: non-negative [start], [stop] are accepted iff
    [start < stop <= n] (so [start < n]); otherwise the call fails with the
    range error carrying [start], [stop] and the live [n].  A negative
    [start] or [stop] is refused earlier by the parameter schema with a
    validation error.  An empty range [start = stop] is refused for every
    [n]. *)
Theorem C1_range_tools_amended (t : RangeTool) (s e : Z) (nb : NotebookDocument) :
  (0 <= s /\ s < e /\ e <= cellCount nb ->
     handleRangeToolCall t (mkArgs s e) (Some nb) = Ok (s, e))
  /\ (0 <= s -> 0 <= e -> ~ (s < e /\ e <= cellCount nb) ->
     handleRangeToolCall t (mkArgs s e) (Some nb)
     = Err (rangeOutOfBounds s e (cellCount nb) (toolName t)))
  /\ (s < 0 \/ e < 0 ->
     exists err, handleRangeToolCall t (mkArgs s e) (Some nb) = Err err
       /\ err_code err = VALIDATION_ERROR)
  /\ (s = e -> exists err, handleRangeToolCall t (mkArgs s e) (Some nb) = Err err).
Proof.
  unfold handleRangeToolCall.
  split; [|split; [|split]].
  - intros (H1 & H2 & H3). rewrite schema_nonneg by lia. simpl.
    apply validateRange_ok; lia.
  - intros H1 H2 H3. rewrite schema_nonneg by lia. simpl.
    apply validateRange_err. lia.
  - intros H. destruct (schema_negative (toolName t) s e H) as [err [-> Hc]].
    exists err. split; [reflexivity | exact Hc].
  - intros ->. destruct (Z.ltb_spec e 0) as [Hn|Hn].
    + destruct (schema_negative (toolName t) e e (or_introl Hn)) as [err [-> _]].
      exists err. reflexivity.
    + rewrite schema_nonneg by lia. simpl.
      rewrite validateRange_err by lia. eexists. reflexivity.
Qed.

Lemma C1_range_tools_amended_witness :
  handleRangeToolCall ReplaceTool (mkArgs 0 3) (Some doc3) = Ok (0, 3)
  /\ handleRangeToolCall DeleteTool (mkArgs 1 4) (Some doc3)
     = Err (rangeOutOfBounds 1 4 3 "delete_notebook_cells")
  /\ (exists err, handleRangeToolCall ExecuteTool (mkArgs (-2) 1) (Some doc3) = Err err
       /\ err_code err = VALIDATION_ERROR)
  /\ (exists err, handleRangeToolCall ExecuteTool (mkArgs 2 2) (Some doc3) = Err err).
Proof.
  split; [|split; [|split]].
  - apply (proj1 (C1_range_tools_amended ReplaceTool 0 3 doc3)).
    change (cellCount doc3) with 3. lia.
  - apply (proj1 (proj2 (C1_range_tools_amended DeleteTool 1 4 doc3))).
    + lia.
    + lia.
    + change (cellCount doc3) with 3. lia.
  - apply (proj1 (proj2 (proj2 (C1_range_tools_amended ExecuteTool (-2) 1 doc3)))).
    left. lia.
  - apply (proj2 (proj2 (proj2 (C1_range_tools_amended ExecuteTool 2 2 doc3)))).
    reflexivity.
Defined.

End RangeFacts.

Module SyncFacts.

Import Sync Samples.

Lemma cellsChanged_all_empty prev live :
  forallb (fun c => Str.trim_is_empty (cell_text c)) live = true ->
  cellsChanged prev live = true.
Proof.
  induction live as [|c rest IH]; simpl; [reflexivity|].
  intros H. apply andb_prop in H as [H1 H2]. rewrite H1. apply IH, H2.
Qed.

Lemma filter_isCode_markup (l : list NotebookCell) :
  Forall (fun c => cell_kind c = Markup) l -> filter isCode l = [].
Proof.
  induction 1 as [|c rest Hc _ IH]; simpl; [reflexivity|].
  unfold isCode. rewrite Hc. exact IH.
Qed.

Lemma report_complete n s e m t final :
  report true n s e m t final = resultsHeader ++ executedLine n s e ++ Render.showCells final m.
Proof. reflexivity. Qed.

(** C3: when the range holds at least one code cell and, at the first
    check of the loop, every code cell's content is empty after [trim()],
    the loop completes on that first pass: one poll, the 500 ms settle
    delay, and a report without the timeout warning. *)
Theorem C3_empty_cells_complete_on_first_poll cells s e m t live rest final :
  codeCellsOf cells s e <> [] ->
  forallb (fun c => Str.trim_is_empty (cell_text c)) live = true ->
  executeNotebookCells cells s e m t (mkEnv (live :: rest) final)
  = ([SnapshotMarkers; ExecuteCommand s e; PollCells; Sleep 500],
     resultsHeader ++ executedLine (Z.of_nat (List.length (codeCellsOf cells s e))) s e
     ++ Render.showCells final m).
Proof.
  intros Hne Hempty. unfold executeNotebookCells.
  destruct (codeCellsOf cells s e) as [|c0 cs] eqn:Hcc; [congruence|].
  simpl Nat.eqb. cbv iota.
  simpl pollLoop. rewrite cellsChanged_all_empty by exact Hempty.
  destruct rest; reflexivity.
Qed.

Lemma C3_empty_cells_complete_on_first_poll_witness :
  executeNotebookCells [codeCell 0 unicodeBlank (Some 4); mdCell 1 "# t"] 0 2 2000 30
    (mkEnv [[codeCell 0 unicodeBlank (Some 4)]] [codeCell 0 unicodeBlank (Some 4)])
  = ([SnapshotMarkers; ExecuteCommand 0 2; PollCells; Sleep 500],
     resultsHeader ++ executedLine 1 0 2
     ++ Render.showCells [codeCell 0 unicodeBlank (Some 4)] 2000).
Proof.
  apply (C3_empty_cells_complete_on_first_poll
           [codeCell 0 unicodeBlank (Some 4); mdCell 1 "# t"] 0 2 2000 30
           [codeCell 0 unicodeBlank (Some 4)] [] [codeCell 0 unicodeBlank (Some 4)]).
  - vm_compute. discriminate.
  - vm_compute. reflexivity.
Defined.

(** C9: when no cell of the target range is a code cell, the call returns
    the "no code cells" report at once: no marker snapshot, no execute
    command, no polling; through [NotebookService.executeCells] the
    document is unchanged and the recorded execution has no host event. *)
Theorem C9_no_code_cells_no_kernel (nb : NotebookDocument)
  (validate : Z -> result (Z * Z)) s e m t env cs :
  validate (cellCount nb) = Ok (s, e) ->
  Forall (fun c => cell_kind c = Markup) (js_slice (nb_cells nb) s e) ->
  executeNotebookCells (nb_cells nb) s e m t env = ([], noCodeCellsReport s e)
  /\ Service.runOp env (Service.ExecuteCells validate m t)
       (Service.mkWorld (Some nb) cs)
     = (Ok (noCodeCellsReport s e),
        Service.mkWorld (Some nb) (cs ++ [Service.Execution []])).
Proof.
  intros Hv Hm.
  assert (Hx : executeNotebookCells (nb_cells nb) s e m t env
               = ([], noCodeCellsReport s e)).
  { unfold executeNotebookCells, codeCellsOf.
    rewrite (filter_isCode_markup _ Hm). reflexivity. }
  split; [exact Hx|].
  simpl. rewrite Hv. rewrite Hx. reflexivity.
Qed.

Lemma C9_no_code_cells_no_kernel_witness :
  Service.runOp (mkEnv [] []) (Service.ExecuteCells (fun _ => Ok (1, 2)) 2000 30)
    (Service.mkWorld (Some doc3) [])
  = (Ok (noCodeCellsReport 1 2), Service.mkWorld (Some doc3) [Service.Execution []]).
Proof.
  apply (proj2 (C9_no_code_cells_no_kernel doc3 (fun _ => Ok (1, 2)) 1 2 2000 30
                  (mkEnv [] []) [] eq_refl
                  ltac:(vm_compute; repeat constructor))).
Defined.

(** C2 fails on the code: on [lateEnv] the notebook.ts loop completes on
    its second pass and reports no warning, while the extension.ts loop
    keeps the stale [allComplete = false], polls until the deadline and
    prefixes the timeout warning. *)
Theorem C2_polling_variants_diverge :
  executeNotebookCells [lateCell] 0 1 2000 30 lateEnv
  = ([SnapshotMarkers; ExecuteCommand 0 1; PollCells; Sleep 200; PollCells; Sleep 500],
     resultsHeader ++ executedLine 1 0 1 ++ Render.showCells [doneCell] 2000)
  /\ executeNotebookCells_ext [lateCell] 0 1 2000 30 lateEnv
  = ([SnapshotMarkers; ExecuteCommand 0 1; PollCells; Sleep 200; PollCells; Sleep 200],
     resultsHeader ++ timeoutWarning 30 ++ executedLine 1 0 1
     ++ Render.showCells [doneCell] 2000)
  /\ snd (executeNotebookCells [lateCell] 0 1 2000 30 lateEnv)
     <> snd (executeNotebookCells_ext [lateCell] 0 1 2000 30 lateEnv).
Proof.
  split; [reflexivity|]. split; [reflexivity|].
  vm_compute. intros H. discriminate H.
Qed.

(** C4 fails on the code when the deadline has already passed at the first
    check of the loop (the clock starts before the awaited execute
    command): [allComplete] keeps its initial [true], so a cell whose
    marker never changed is reported without the timeout warning. *)
Theorem C4_no_poll_before_deadline_no_warning :
  executeNotebookCells [lateCell] 0 1 2000 30 (mkEnv [] [lateCell])
  = ([SnapshotMarkers; ExecuteCommand 0 1],
     resultsHeader ++ executedLine 1 0 1 ++ Render.showCells [lateCell] 2000).
Proof. reflexivity. Qed.

(** What does hold for C4: once at least one check ran before the deadline
    and no check found every watched cell changed, the call still returns
    a report, prefixed with the timeout warning. *)
Lemma pollLoop_never_complete prev polls :
  polls <> [] -> Forall (fun live => cellsChanged prev live = false) polls ->
  forall ac, fst (pollLoop prev polls false ac) = false.
Proof.
  intros Hne H. revert Hne.
  induction H as [|live rest Hl Hrest IH]; intros Hne ac; [congruence|].
  change (pollLoop prev (live :: rest) false ac) with
    (let allComplete := true && cellsChanged prev live in
     if allComplete then
       let '(ac', tr) := pollLoop prev rest true allComplete in
       (ac', PollCells :: Sleep 500 :: tr)
     else
       let '(ac', tr) := pollLoop prev rest false allComplete in
       (ac', PollCells :: Sleep 200 :: tr)).
  rewrite Hl. cbv zeta. simpl andb. cbv iota.
  destruct rest as [|l2 rest2].
  - reflexivity.
  - specialize (IH ltac:(discriminate) false).
    destruct (pollLoop prev (l2 :: rest2) false false) as [a t] eqn:E.
    exact IH.
Qed.

Lemma timed_out_report_warns cells s e m t polls final :
  codeCellsOf cells s e <> [] -> polls <> [] ->
  Forall (fun live => cellsChanged (snapshot (codeCellsOf cells s e)) live = false) polls ->
  exists tr, executeNotebookCells cells s e m t (mkEnv polls final)
  = (SnapshotMarkers :: ExecuteCommand s e :: tr,
     resultsHeader ++ timeoutWarning t
     ++ executedLine (Z.of_nat (List.length (codeCellsOf cells s e))) s e
     ++ Render.showCells final m).
Proof.
  intros Hne Hp Hf. unfold executeNotebookCells.
  destruct (codeCellsOf cells s e) as [|c0 cs] eqn:Hcc; [congruence|].
  simpl Nat.eqb. cbv iota.
  cbn [env_polls env_final].
  pose proof (pollLoop_never_complete _ _ Hp Hf true) as H.
  destruct (pollLoop (snapshot (c0 :: cs)) polls false true) as [ac tr].
  simpl in H. subst ac. exists tr. reflexivity.
Qed.

End SyncFacts.

Module EditFacts.

Import Edit Samples SpecWords.

(** C5: with an active notebook of [n] cells and a non-empty list of cells,
    [insertCells] never rejects the position: a numeric position [p] is
    used as [clamp(p, 0, n)], and an omitted one appends at [n]. *)
Theorem C5_insert_position_clamped (cells : list CellDefinition) (nb : NotebookDocument) :
  cells <> [] ->
  (forall p, insertCells cells (Some p) (Some nb)
             = Ok (clamp p 0 (cellCount nb), map (insertCellData (nb_cells nb)) cells))
  /\ insertCells cells None (Some nb)
     = Ok (cellCount nb, map (insertCellData (nb_cells nb)) cells).
Proof.
  intros Hne. destruct cells as [|c rest]; [congruence|].
  assert (Hn : 0 <= cellCount nb) by (unfold cellCount; lia).
  split.
  - intros p. simpl. f_equal. f_equal.
    unfold clamp. zcases; lia.
  - reflexivity.
Qed.

Lemma C5_insert_position_clamped_witness :
  insertCells [mkDef "1 + 1" (Some "code") None] (Some 10) (Some doc3)
  = Ok (3, [mkData Code "1 + 1" "python" None])
  /\ insertCells [mkDef "1 + 1" (Some "code") None] (Some (-4)) (Some doc3)
  = Ok (0, [mkData Code "1 + 1" "python" None]).
Proof.
  split.
  - apply (proj1 (C5_insert_position_clamped [mkDef "1 + 1" (Some "code") None] doc3
                    ltac:(discriminate)) 10).
  - apply (proj1 (C5_insert_position_clamped [mkDef "1 + 1" (Some "code") None] doc3
                    ltac:(discriminate)) (-4)).
Defined.

Lemma replaceCellDataFrom_nth ctr k defs datas :
  replaceCellDataFrom ctr k defs = Ok datas ->
  forall i d cd, nth_error defs i = Some d -> nth_error datas i = Some cd ->
  replaceCellDataAt ctr (k + i) d = Ok cd.
Proof.
  revert k datas. induction defs as [|d0 rest IH]; intros k datas H i d cd Hd Hc.
  - destruct i; discriminate.
  - simpl in H.
    destruct (replaceCellDataAt ctr k d0) as [cd0|] eqn:E0; [|discriminate].
    simpl in H.
    destruct (replaceCellDataFrom ctr (S k) rest) as [tl|] eqn:E1; [|discriminate].
    simpl in H. injection H as <-.
    destruct i as [|i].
    + simpl in Hd, Hc. injection Hd as <-. injection Hc as <-.
      rewrite Nat.add_0_r. exact E0.
    + simpl in Hd, Hc. rewrite <- Nat.add_succ_comm.
      exact (IH (S k) tl E1 i d cd Hd Hc).
Qed.

Lemma find_isCode_lang ctr f :
  Forall (fun c => cell_languageId c <> EmptyString) ctr ->
  find isCode ctr = Some f ->
  (if String.eqb (cell_languageId f) EmptyString then "python" else cell_languageId f)
  = cell_languageId f.
Proof.
  intros Hall Hf. apply find_some in Hf as [Hin _].
  rewrite Forall_forall in Hall. specialize (Hall f Hin).
  destruct (String.eqb_spec (cell_languageId f) EmptyString); congruence.
Qed.

Lemma languageFor_code_omitted ctr i d :
  Forall (fun c => cell_languageId c <> EmptyString) ctr ->
  def_language_id d = None ->
  languageFor ctr i d Code = Ok (threeTierLanguage ctr i).
Proof.
  intros Hall Hnone. unfold languageFor, threeTierLanguage, truthy. rewrite Hnone.
  assert (Hfirst :
    match find isCode ctr with
    | Some f => Ok (if String.eqb (cell_languageId f) EmptyString then "python"
                    else cell_languageId f)
    | None => Ok "python"
    end
    = Ok (match find isCode ctr with
          | Some f => cell_languageId f
          | None => "python"
          end) :> result string).
  { destruct (find isCode ctr) as [f|] eqn:Ef; [|reflexivity].
    rewrite (find_isCode_lang ctr f Hall Ef). reflexivity. }
  destruct (Nat.ltb_spec i (List.length ctr)) as [Hlt|Hge].
  - destruct (nth_error ctr i) as [c|] eqn:Ec.
    + destruct (isCode c); [reflexivity | exact Hfirst].
    + exact Hfirst.
  - rewrite (proj2 (nth_error_None ctr i) Hge). exact Hfirst.
Qed.

(** C6: in [replaceCells] (and so in [modifyCellContent], which calls it
    with one cell definition), a new cell that ends up code-kind and has no
    [language_id] gets the language of its positional peer when that peer
    exists and is a code cell, else the language of the first code cell of
    the replaced range, else "python".  (The host gives every cell a
    non-empty language id.) *)
Theorem C6_replace_language_three_tier ctr defs datas i d cd :
  Forall (fun c => cell_languageId c <> EmptyString) ctr ->
  replaceCellData ctr defs = Ok datas ->
  nth_error defs i = Some d ->
  def_language_id d = None ->
  nth_error datas i = Some cd ->
  data_kind cd = Code ->
  data_languageId cd = threeTierLanguage ctr i.
Proof.
  intros Hall Hrep Hd Hnone Hc Hkind.
  pose proof (replaceCellDataFrom_nth ctr 0 defs datas Hrep i d cd Hd Hc) as Hat.
  simpl in Hat. unfold replaceCellDataAt in Hat.
  destruct (kindFor ctr i d) as [k|] eqn:Ek; [|discriminate].
  simpl in Hat.
  destruct (languageFor ctr i d k) as [l|] eqn:El; [|discriminate].
  simpl in Hat. injection Hat as <-. simpl in Hkind |- *. subst k.
  rewrite languageFor_code_omitted in El by assumption.
  injection El as <-. reflexivity.
Qed.

Lemma C6_replace_language_three_tier_witness :
  data_languageId (mkData Code "y" "julia" None) = threeTierLanguage juliaRange 0
  /\ data_languageId (mkData Code "z" "julia" (Some [])) = threeTierLanguage juliaRange 1.
Proof.
  split.
  - apply (C6_replace_language_three_tier juliaRange
             [mkDef "y" (Some "code") None; mkDef "z" None None]
             [mkData Code "y" "julia" None; mkData Code "z" "julia" (Some [])]
             0 (mkDef "y" (Some "code") None) (mkData Code "y" "julia" None)).
    + repeat constructor; discriminate.
    + vm_compute. reflexivity.
    + reflexivity.
    + reflexivity.
    + reflexivity.
    + reflexivity.
  - apply (C6_replace_language_three_tier juliaRange
             [mkDef "y" (Some "code") None; mkDef "z" None None]
             [mkData Code "y" "julia" None; mkData Code "z" "julia" (Some [])]
             1 (mkDef "z" None None) (mkData Code "z" "julia" (Some []))).
    + repeat constructor; discriminate.
    + vm_compute. reflexivity.
    + reflexivity.
    + reflexivity.
    + reflexivity.
    + reflexivity.
Defined.

End EditFacts.

Module BodyFacts.

Import Body SpecWords.

(** Every handler checks [resolved] first: a settled reader ignores any
    event, whether or not its listener is still registered. *)
Lemma deliver_resolved m s ev :
  resolved s = true -> deliver m s ev = s.
Proof.
  intros Hr. destruct ev as [r e]. unfold deliver.
  destruct (existsb _ _); [|reflexivity].
  destruct e; simpl.
  - unfold onData. rewrite Hr. reflexivity.
  - unfold onEnd. rewrite Hr. rewrite andb_false_r. reflexivity.
  - unfold onError, safeReject, settle. rewrite Hr. reflexivity.
  - unfold onClose. rewrite Hr. reflexivity.
Qed.

Lemma run_resolved_stays m evs s :
  resolved s = true -> fold_left (deliver m) evs s = s.
Proof.
  revert s. induction evs as [|ev rest IH]; intros s Hr; simpl; [reflexivity|].
  rewrite (deliver_resolved m s ev Hr). apply IH, Hr.
Qed.

(** The reader before it settles: all four listeners registered, the
    limit not yet crossed, nothing settled. *)
Definition pending (s : ReaderState) : Prop :=
  resolved s = false /\ sizeExceeded s = false
  /\ listeners s = [EvError; EvData; EvEnd; EvClose] /\ settled s = [].

(** After it settles: exactly one settlement. *)
Definition done (s : ReaderState) : Prop :=
  resolved s = true /\ List.length (settled s) = 1%nat.

Lemma deliver_inv m s ev :
  pending s \/ done s -> pending (deliver m s ev) \/ done (deliver m s ev).
Proof.
  intros [(Hr & Hx & Hl & Hs) | Hd].
  - destruct s as [b n x r l st]; simpl in *. subst r x l st.
    destruct ev as [rd e]. unfold deliver. simpl.
    destruct e; simpl.
    + unfold onData. simpl.
      destruct (n + Z.of_nat (List.length chunk) >? m).
      * right. unfold safeReject, settle, cleanup. simpl.
        destruct rd; simpl; split; reflexivity.
      * left. simpl. repeat split.
    + unfold onEnd, safeResolve, settle, cleanup. simpl.
      right. destruct rd; simpl; split; reflexivity.
    + unfold onError, safeReject, settle, cleanup. simpl.
      right. destruct rd; simpl; split; reflexivity.
    + unfold onClose, safeReject, settle, cleanup. simpl.
      right. destruct rd; simpl; split; reflexivity.
  - right. rewrite deliver_resolved by apply Hd. exact Hd.
Qed.

Lemma run_inv m evs s :
  pending s \/ done s -> pending (fold_left (deliver m) evs s)
                         \/ done (fold_left (deliver m) evs s).
Proof.
  revert s. induction evs as [|ev rest IH]; intros s H; simpl; [exact H|].
  apply IH, deliver_inv, H.
Qed.

Lemma deliver_terminal m s ev :
  pending s \/ done s -> isTerminal ev = true -> done (deliver m s ev).
Proof.
  intros [(Hr & Hx & Hl & Hs) | Hd] Ht.
  - destruct s as [b n x r l st]; simpl in *. subst r x l st.
    destruct ev as [rd e]. unfold isTerminal in Ht. simpl in Ht.
    unfold deliver. destruct e; simpl; try discriminate Ht.
    + unfold onEnd, safeResolve, settle, cleanup. simpl.
      destruct rd; simpl; split; reflexivity.
    + unfold onError, safeReject, settle, cleanup. simpl.
      destruct rd; simpl; split; reflexivity.
    + unfold onClose, safeReject, settle, cleanup. simpl.
      destruct rd; simpl; split; reflexivity.
  - rewrite deliver_resolved by apply Hd. exact Hd.
Qed.

Lemma run_terminal m evs s :
  pending s \/ done s -> existsb isTerminal evs = true ->
  done (fold_left (deliver m) evs s).
Proof.
  revert s. induction evs as [|ev rest IH]; intros s H Ht; simpl in *; [discriminate|].
  destruct (isTerminal ev) eqn:E.
  - pose proof (deliver_terminal m s ev H E) as Hd.
    rewrite run_resolved_stays by apply Hd. exact Hd.
  - apply IH; [apply deliver_inv, H | exact Ht].
Qed.

Lemma initial_pending : pending initial.
Proof. repeat split. Qed.

Lemma sumLen_nonneg chunks : 0 <= sumLen chunks.
Proof.
  induction chunks as [|rc rest IH]; simpl; lia.
Qed.

Lemma run_data_below m chunks s :
  pending s -> bodySize s + sumLen chunks <= m ->
  fold_left (deliver m) (dataEvents chunks) s
  = mkReader (body s ++ map snd chunks) (bodySize s + sumLen chunks) false false
      (listeners s) (settled s).
Proof.
  revert s. induction chunks as [|[r c] rest IH]; intros s Hp Hle.
  - destruct s; destruct Hp as (Hr & Hx & _); simpl in *; subst.
    rewrite app_nil_r, Z.add_0_r. reflexivity.
  - simpl in Hle.
    change (dataEvents ((r, c) :: rest)) with ((r, Data c) :: dataEvents rest).
    cbn [fold_left].
    pose proof (sumLen_nonneg rest) as Hnn.
    destruct Hp as (Hr & Hx & Hl & Hs).
    assert (Hstep : deliver m s (r, Data c)
                    = mkReader (body s ++ [c]) (bodySize s + Z.of_nat (List.length c))
                        false false (listeners s) (settled s)).
    { destruct s as [b n x rs l st]; simpl in *. subst rs x l st.
      unfold deliver. simpl. unfold onData. simpl.
      rewrite (Z.gtb_ltb _ m).
      destruct (Z.ltb_spec m (n + Z.of_nat (List.length c))); [lia|].
      reflexivity. }
    rewrite Hstep. rewrite IH.
    + simpl. rewrite <- app_assoc. simpl. f_equal. lia.
    + repeat split; simpl; assumption || reflexivity.
    + simpl. lia.
Qed.

(** C7: a body of exactly [maxSize] bytes, in any chunking, is resolved
    whole at its end; for a body whose cumulative size crosses [maxSize],
    nothing is settled before the crossing chunk, that chunk rejects with
    the size-exceeded error, and no chunk is appended afterwards, whatever
    events follow. *)
Theorem C7_size_limit (maxSize : Z) :
  (forall chunks rEnd, sumLen chunks = maxSize ->
     settled (run maxSize (dataEvents chunks ++ [(rEnd, End)]))
     = [Resolved (map snd chunks)])
  /\ (forall pre r c post,
     sumLen pre <= maxSize ->
     sumLen pre + Z.of_nat (List.length c) > maxSize ->
     settled (run maxSize (dataEvents pre)) = []
     /\ settled (run maxSize (dataEvents pre ++ [(r, Data c)] ++ post))
        = [Rejected (tooLarge (sumLen pre + Z.of_nat (List.length c)) maxSize)]
     /\ body (run maxSize (dataEvents pre ++ [(r, Data c)] ++ post)) = map snd pre).
Proof.
  split.
  - intros chunks rEnd Hsum. unfold run. rewrite fold_left_app.
    rewrite run_data_below by (apply initial_pending || (simpl; lia)).
    simpl. destruct rEnd; reflexivity.
  - intros pre r c post Hle Hgt. unfold run.
    rewrite !fold_left_app.
    rewrite run_data_below by (apply initial_pending || (simpl; lia)).
    split; [reflexivity|].
    simpl. unfold onData. simpl.
    rewrite (Z.gtb_ltb _ maxSize).
    destruct (Z.ltb_spec maxSize (sumLen pre + Z.of_nat (List.length c))); [|lia].
    rewrite run_resolved_stays by (destruct r; reflexivity).
    destruct r; split; reflexivity.
Qed.

Lemma C7_size_limit_witness :
  settled (run 2 (dataEvents [(true, [Byte.x61]); (true, [Byte.x62])] ++ [(false, End)]))
  = [Resolved [[Byte.x61]; [Byte.x62]]]
  /\ body (run 2 (dataEvents [(true, [Byte.x61; Byte.x62])] ++ [(true, Data [Byte.x63])]
                  ++ [(true, Data [Byte.x64]); (false, End)]))
     = [[Byte.x61; Byte.x62]].
Proof.
  split.
  - apply (proj1 (C7_size_limit 2) [(true, [Byte.x61]); (true, [Byte.x62])] false).
    reflexivity.
  - apply (proj2 (proj2 (proj2 (C7_size_limit 2) [(true, [Byte.x61; Byte.x62])] true
             [Byte.x63] [(true, Data [Byte.x64]); (false, End)]
             ltac:(simpl; lia) ltac:(simpl; lia)))).
Defined.

(** Claim C8, as stated, fails: settling does not detach the listeners.
    The close listener is never removed, and the others are removed only
    if the request is still readable; here a reader rejected for size
    keeps its close listener, and one resolved at a non-readable end keeps
    all four. *)
Lemma C8_listeners_not_detached_counterexample :
  resolved (run 0 [(true, Data [Byte.x00])]) = true
  /\ listeners (run 0 [(true, Data [Byte.x00])]) = [EvClose]
  /\ resolved (run 10 [(false, End)]) = true
  /\ listeners (run 10 [(false, End)]) = [EvError; EvData; EvEnd; EvClose].
Proof. repeat split. Qed.

(** C8 (amended): for every interleaving of data, end, error and close
    events, the promise settles at most once, and exactly once as soon as
    an end, error or close event has been delivered; once settled, the
    [resolved] flag is set and every further event leaves the reader
    (body, settlement, flags) unchanged. *)
Theorem C8_settles_at_most_once (maxSize : Z) (events : list (bool * StreamEvent)) :
  (List.length (settled (run maxSize events)) <= 1)%nat
  /\ (existsb isTerminal events = true ->
      List.length (settled (run maxSize events)) = 1%nat)
  /\ (List.length (settled (run maxSize events)) = 1%nat ->
      resolved (run maxSize events) = true
      /\ forall more, run maxSize (events ++ more) = run maxSize events).
Proof.
  pose proof (run_inv maxSize events initial (or_introl initial_pending)) as Hinv.
  fold (run maxSize events) in Hinv.
  split; [|split].
  - destruct Hinv as [(_ & _ & _ & Hs) | (_ & Hl)]; rewrite ?Hs, ?Hl; simpl; lia.
  - intros Ht. apply (run_terminal maxSize events initial (or_introl initial_pending) Ht).
  - intros H1.
    assert (Hr : resolved (run maxSize events) = true).
    { destruct Hinv as [(_ & _ & _ & Hs) | (Hr & _)]; [rewrite Hs in H1; discriminate|exact Hr]. }
    split; [exact Hr|].
    intros more. unfold run. rewrite fold_left_app.
    apply run_resolved_stays, Hr.
Qed.

Lemma C8_settles_at_most_once_witness :
  List.length (settled (run 4 [(true, Data [Byte.x01]); (false, End); (false, Close)])) = 1%nat
  /\ resolved (run 4 [(true, Data [Byte.x01]); (false, End)]) = true.
Proof.
  split.
  - apply (proj1 (proj2 (C8_settles_at_most_once 4
             [(true, Data [Byte.x01]); (false, End); (false, Close)]))).
    reflexivity.
  - apply (proj1 (proj2 (proj2 (C8_settles_at_most_once 4
             [(true, Data [Byte.x01]); (false, End)])) eq_refl)).
Defined.

End BodyFacts.

Module ServiceFacts.

Import Service.

(** C10: with no active notebook editor, [getNotebookInfo] succeeds with
    the "No active notebook found" report, and every other operation
    (get cells, insert, replace, modify, execute, delete, save, restart,
    interrupt) fails with the no-active-notebook error, making no host
    call and leaving the host as it was. *)
Theorem C10_no_active_notebook (env : Sync.ExecEnv) (cs : list HostCall) :
  runOp env GetNotebookInfo (mkWorld None cs) = (Ok noActiveInfo, mkWorld None cs)
  /\ forall op, op <> GetNotebookInfo ->
     exists operation, runOp env op (mkWorld None cs)
                       = (Err (noActiveNotebook operation), mkWorld None cs).
Proof.
  split; [reflexivity|].
  intros op Hop. destruct op; simpl; try congruence; eexists; reflexivity.
Qed.

Lemma C10_no_active_notebook_witness :
  exists operation,
    runOp (Sync.mkEnv [] []) (DeleteCells (fun _ => Ok (0, 1))) (mkWorld None [])
    = (Err (noActiveNotebook operation), mkWorld None []).
Proof.
  apply (proj2 (C10_no_active_notebook (Sync.mkEnv [] []) [])).
  discriminate.
Defined.

End ServiceFacts.

Module ConfigFacts.

Import Config.

Lemma Qle_bool_false (x y : Q) : Qle_bool x y = false -> (y < x)%Q.
Proof.
  intros H. destruct (Qlt_le_dec y x) as [Hlt|Hle]; [exact Hlt|].
  apply Qle_bool_iff in Hle. congruence.
Qed.

(** Case analysis on the comparisons of [getNumericConfig]. *)
Ltac qcases :=
  repeat match goal with
  | |- context [Qle_bool ?x ?y] =>
      let E := fresh "E" in
      destruct (Qle_bool x y) eqn:E;
      [apply Qle_bool_iff in E | apply Qle_bool_false in E]
  end.

(** With both bounds given and the default between them, the result is a
    finite number between the bounds. *)
Lemma getNumericConfig_clamped (stored : option ConfigValue) (d mn mx : Q) :
  (mn <= d <= mx)%Q ->
  exists q, getNumericConfig stored d (Some mn) (Some mx) = Num q /\ (mn <= q <= mx)%Q.
Proof.
  intros Hd. unfold getNumericConfig.
  destruct stored as [[q| | | |]|]; cbn [js_lt js_gt negb]; qcases; cbn [negb];
    eexists; (split; [reflexivity|]); lra.
Qed.

(** X1: with [min <= defaultValue <= max], [getNumericConfig] returns,
    whatever [config.get] gives (a fraction, an infinity, [NaN], a
    non-number, or nothing), a finite number in [[min, max]]; a stored
    number already in that range is returned unchanged. *)
Theorem getNumericConfig_in_bounds (stored : option ConfigValue) (d mn mx : Q) :
  (mn <= d <= mx)%Q ->
  (exists q, getNumericConfig stored d (Some mn) (Some mx) = Num q /\ (mn <= q <= mx)%Q)
  /\ (forall v, (mn <= v <= mx)%Q ->
      getNumericConfig (Some (Num v)) d (Some mn) (Some mx) = Num v).
Proof.
  intros Hd. split; [apply getNumericConfig_clamped, Hd|].
  intros v Hv. unfold getNumericConfig. cbn [js_lt js_gt]. qcases; cbn [negb];
    first [reflexivity | lra].
Qed.

Lemma getNumericConfig_in_bounds_witness :
  (exists q, getNumericConfig (Some PosInfinity) 2000%Q (Some 100%Q) (Some 50000%Q) = Num q
             /\ (100 <= q <= 50000)%Q)
  /\ getNumericConfig (Some (Num 2.5%Q)) 2%Q (Some 1%Q) (Some 100%Q) = Num 2.5%Q.
Proof.
  destruct (getNumericConfig_in_bounds (Some PosInfinity) 2000 100 50000) as [H1 _];
    [split; vm_compute; discriminate|].
  destruct (getNumericConfig_in_bounds None 2 1 100) as [_ H2];
    [split; vm_compute; discriminate|].
  split; [exact H1|]. apply H2. split; vm_compute; discriminate.
Defined.

(** X3: whatever is stored, [getNotebookSettings] gives finite numbers:
    [maxOutputSize] in [[100, 50000]] and [timeoutSeconds] in [[5, 300]]. *)
Theorem getNotebookSettings_bounds (a b : option ConfigValue) :
  exists m t, getNotebookSettings a b = (Num m, Num t)
  /\ (100 <= m <= 50000)%Q /\ (5 <= t <= 300)%Q.
Proof.
  unfold getNotebookSettings.
  destruct (getNumericConfig_clamped a 2000 100 50000) as [m [Hm Bm]]; [lra|].
  destruct (getNumericConfig_clamped b 30 5 300) as [t [Ht Bt]]; [lra|].
  rewrite Hm, Ht. exists m, t. auto.
Qed.

(** X4: whatever is stored, [getMCPSettings] gives finite numbers: a
    request timeout in [[30, 3600]] seconds and a maximum request size in
    [[1, 100]] MB (not necessarily whole). *)
Theorem getMCPSettings_bounds (a b : option ConfigValue) :
  exists r m, getMCPSettings a b = (Num r, Num m)
  /\ (30 <= r <= 3600)%Q /\ (1 <= m <= 100)%Q.
Proof.
  unfold getMCPSettings.
  destruct (getNumericConfig_clamped a 600 30 3600) as [r [Hr Br]]; [lra|].
  destruct (getNumericConfig_clamped b 10 1 100) as [m [Hm Bm]]; [lra|].
  rewrite Hr, Hm. exists r, m. auto.
Qed.

End ConfigFacts.

Module FormatFacts.

Import Format.

(** X5: shown to the user, an [indexOutOfBounds(i, m)] error reads
    "Cell index i is invalid. Valid range is 0-m." (the factory's
    [cellCount = m + 1] and the formatter's [cellCount - 1] cancel), while
    every [rangeOutOfBounds] error, which carries no [cellIndex], reads
    only "The specified cell index is out of bounds.": its range is not
    shown. *)
Theorem forUser_index_errors (i m s t n : Z) (op : string) :
  forUser (indexOutOfBounds i m op)
  = "Cell index " ++ Str.of_Z i ++ " is invalid. Valid range is 0-" ++ Str.of_Z m ++ "."
  /\ forUser (rangeOutOfBounds s t n op) = "The specified cell index is out of bounds.".
Proof.
  split; [|reflexivity].
  unfold forUser, indexOutOfBounds. simpl.
  replace (m + 1 - 1) with m by lia. reflexivity.
Qed.

End FormatFacts.

(** Shared lemmas on the edited cell lists. *)
Module EditListFacts.

Import Edit.

Import Service.

Lemma firstn_length_app {A} (l1 l2 : list A) : firstn (List.length l1) (l1 ++ l2) = l1.
Proof.
  rewrite firstn_app, Nat.sub_diag, firstn_all. simpl. apply app_nil_r.
Qed.

Lemma skipn_length_app {A} (l1 l2 : list A) : skipn (List.length l1) (l1 ++ l2) = l2.
Proof.
  rewrite skipn_app, Nat.sub_diag, skipn_all. reflexivity.
Qed.

(** [slice] inside the array is [firstn] of [skipn]. *)
Lemma js_slice_in_range {A} (l : list A) (s e : Z) :
  0 <= s <= e -> e <= Z.of_nat (List.length l) ->
  js_slice l s e = firstn (Z.to_nat (e - s)) (skipn (Z.to_nat s) l).
Proof.
  intros Hs He. unfold js_slice, js_rel. zcases; try lia.
  replace (Z.min e (Z.of_nat (List.length l))) with e by lia.
  replace (Z.min s (Z.of_nat (List.length l))) with s by lia.
  reflexivity.
Qed.

Lemma js_slice_middle {A} (l1 l2 l3 : list A) :
  js_slice (l1 ++ l2 ++ l3) (Z.of_nat (List.length l1))
    (Z.of_nat (List.length l1) + Z.of_nat (List.length l2)) = l2.
Proof.
  rewrite js_slice_in_range by (rewrite ?length_app; lia).
  rewrite Nat2Z.id. rewrite skipn_length_app.
  replace (Z.to_nat _) with (List.length l2) by lia.
  rewrite firstn_length_app. reflexivity.
Qed.

(** Re-indexing keeps every field but the index. *)
Lemma reindexFrom_map {B} (f : NotebookCell -> B) i l :
  (forall j c, f (mkCell j (cell_kind c) (cell_languageId c) (cell_text c)
                  (cell_executionSummary c) (cell_outputs c) (cell_metadata c)) = f c) ->
  map f (reindexFrom i l) = map f l.
Proof.
  intros Hf. revert i. induction l as [|c rest IH]; intros i; simpl; [reflexivity|].
  rewrite Hf, IH. reflexivity.
Qed.

Lemma reindexFrom_length i l : List.length (reindexFrom i l) = List.length l.
Proof.
  revert i. induction l as [|c rest IH]; intros i; simpl; [reflexivity|].
  rewrite IH. reflexivity.
Qed.

Lemma reindexFrom_index i l k c :
  nth_error (reindexFrom i l) k = Some c -> cell_index c = i + Z.of_nat k.
Proof.
  revert i k. induction l as [|c0 rest IH]; intros i k H; simpl in H.
  - destruct k; discriminate.
  - destruct k as [|k]; simpl in H.
    + inversion H; subst. simpl. lia.
    + apply IH in H. lia.
Qed.

Lemma reindexFrom_text i l : map cell_text (reindexFrom i l) = map cell_text l.
Proof. apply reindexFrom_map. reflexivity. Qed.

Lemma reindexFrom_kind i l : map cell_kind (reindexFrom i l) = map cell_kind l.
Proof. apply reindexFrom_map. reflexivity. Qed.

Lemma reindexFrom_metadata i l : map cell_metadata (reindexFrom i l) = map cell_metadata l.
Proof. apply reindexFrom_map. reflexivity. Qed.

(** The cells after a splice: the kept prefix, the new cells, the kept
    suffix. *)
Lemma spliceCells_parts l1 l2 l3 datas :
  spliceCells (l1 ++ l2 ++ l3) (Z.of_nat (List.length l1))
    (Z.of_nat (List.length l1) + Z.of_nat (List.length l2)) datas
  = reindexFrom 0 (l1 ++ map materialize datas ++ l3).
Proof.
  unfold spliceCells. rewrite Nat2Z.id, firstn_length_app.
  replace (Z.to_nat _) with (List.length (l1 ++ l2)) by (rewrite length_app; lia).
  rewrite (app_assoc l1 l2 l3), skipn_length_app. reflexivity.
Qed.

Lemma replaceCellDataFrom_values ctr k defs datas :
  replaceCellDataFrom ctr k defs = Ok datas ->
  map data_value datas = map def_content defs.
Proof.
  revert k datas. induction defs as [|d rest IH]; intros k datas H; simpl in H.
  - inversion H. reflexivity.
  - unfold replaceCellDataAt, bind in H.
    destruct (kindFor ctr k d) as [kd|]; [|discriminate].
    destruct (languageFor ctr k d kd) as [lg|]; [|discriminate].
    destruct (replaceCellDataFrom ctr (S k) rest) as [tl|] eqn:E; [|discriminate].
    inversion H; subst. simpl. rewrite (IH (S k) tl E). reflexivity.
Qed.

Lemma replaceCellDataFrom_length ctr k defs datas :
  replaceCellDataFrom ctr k defs = Ok datas -> List.length datas = List.length defs.
Proof.
  intros H. apply replaceCellDataFrom_values in H.
  rewrite <- (length_map data_value), H, length_map. reflexivity.
Qed.

End EditListFacts.

Module ToolsFacts.

Import Errors Nb Edit Service Tools EditListFacts.

(** X6: a tool call whose name is none of the nine tools leaves the host
    unchanged and fails with the tool error "Unknown tool: <name>", which
    the CallTool handler returns as the error response
    "Error [RooNotebookError]: Unknown tool: <name>". *)
Theorem unknown_tool_rejected env a b isAbs folders name p w :
  forallb (fun k => negb (String.eqb name k))
    ["get_notebook_info"; "get_notebook_cells"; "insert_notebook_cells";
     "replace_notebook_cells"; "modify_notebook_cell_content";
     "execute_notebook_cells"; "delete_notebook_cells"; "save_notebook";
     "open_notebook"] = true ->
  handleToolCall env a b isAbs folders name p w
  = Done (Err (toolError name ("Unknown tool: " ++ name))) w
  /\ toolResponse (Err (toolError name ("Unknown tool: " ++ name)))
     = mkResponse ("Error [RooNotebookError]: Unknown tool: " ++ name) true.
Proof.
  intros H. split; [|reflexivity].
  rewrite forallb_forall in H.
  assert (E : forall k, existsb (String.eqb k)
                ["get_notebook_info"; "get_notebook_cells"; "insert_notebook_cells";
                 "replace_notebook_cells"; "modify_notebook_cell_content";
                 "execute_notebook_cells"; "delete_notebook_cells"; "save_notebook";
                 "open_notebook"] = true -> String.eqb name k = false).
  { intros k Hk. apply existsb_exists in Hk. destruct Hk as [k' [Hin Hk]].
    apply String.eqb_eq in Hk. subst k'. specialize (H k Hin).
    destruct (String.eqb name k); [discriminate|reflexivity]. }
  unfold handleToolCall. destruct (Config.getNotebookSettings a b) as [ms0 ts0];
    set (ms := Config.toInteger ms0); set (ts := Config.toInteger ts0).
  unfold toolAction.
  repeat match goal with
  | |- context [String.eqb name ?k] => rewrite (E k) by reflexivity
  end.
  reflexivity.
Qed.

Lemma unknown_tool_rejected_witness :
  handleToolCall (Sync.mkEnv [] []) None None (fun _ => true) []
    "restart_kernel" (mkParams 0 0 [] None 0 EmptyString None EmptyString)
    (mkWorld None [])
  = Done (Err (toolError "restart_kernel" ("Unknown tool: " ++ "restart_kernel")))
      (mkWorld None [])
  /\ toolResponse (Err (toolError "restart_kernel" ("Unknown tool: " ++ "restart_kernel")))
     = mkResponse ("Error [RooNotebookError]: Unknown tool: " ++ "restart_kernel") true.
Proof.
  apply unknown_tool_rejected. reflexivity.
Defined.

(** X7: [modify_notebook_cell_content] with a cell index [i] that the tool
    schema admits ([i >= 0]) but that is not below the cell count [n]
    fails with [indexOutOfBounds(i, n - 1)] before any edit, the host
    unchanged, whatever [noexec]; its response reads
    "Error [RooNotebookError]: Index i is out of bounds (0-(n-1))". *)
Theorem modify_cell_out_of_range env a b isAbs folders nb i content s t defs pos
  noexec path cs :
  0 <= i -> cellCount nb <= i ->
  handleToolCall env a b isAbs folders "modify_notebook_cell_content"
    (mkParams s t defs pos i content noexec path) (mkWorld (Some nb) cs)
  = Done (Err (indexOutOfBounds i (cellCount nb - 1) "modify_notebook_cell_content"))
      (mkWorld (Some nb) cs)
  /\ toolResponse (Err (indexOutOfBounds i (cellCount nb - 1) "modify_notebook_cell_content"))
     = mkResponse ("Error [RooNotebookError]: Index " ++ Str.of_Z i
                   ++ " is out of bounds (0-" ++ Str.of_Z (cellCount nb - 1) ++ ")") true.
Proof.
  intros H0 Hi. split; [|reflexivity].
  assert (Hv : validateCellIndex "modify_notebook_cell_content" i (cellCount nb)
               = Err (indexOutOfBounds i (cellCount nb - 1) "modify_notebook_cell_content")).
  { unfold validateCellIndex. zcases; simpl; try lia; reflexivity. }
  unfold handleToolCall. destruct (Config.getNotebookSettings a b) as [ms0 ts0];
    set (ms := Config.toInteger ms0); set (ts := Config.toInteger ts0).
  change (toolAction _ _ ms ts isAbs folders) with
    (Ok (CallService (ModifyCellContent (validateCellIndex "modify_notebook_cell_content" i)
                        content (match noexec with Some b => b | None => false end) ms ts))
     : result ToolAction).
  cbn [runOp activeNotebook]. unfold replaceCellsOn. cbn [bind].
  rewrite Hv. reflexivity.
Qed.

Lemma modify_cell_out_of_range_witness :
  handleToolCall (Sync.mkEnv [] []) None None (fun _ => true) []
    "modify_notebook_cell_content"
    (mkParams 0 0 [] None 3 "y = 2" None EmptyString) (mkWorld (Some Samples.doc3) [])
  = Done (Err (indexOutOfBounds 3 (cellCount Samples.doc3 - 1) "modify_notebook_cell_content"))
      (mkWorld (Some Samples.doc3) [])
  /\ toolResponse (Err (indexOutOfBounds 3 (cellCount Samples.doc3 - 1)
                          "modify_notebook_cell_content"))
     = mkResponse ("Error [RooNotebookError]: Index " ++ Str.of_Z 3
                   ++ " is out of bounds (0-" ++ Str.of_Z (cellCount Samples.doc3 - 1) ++ ")")
         true.
Proof.
  apply modify_cell_out_of_range; [lia | vm_compute; discriminate].
Defined.

(** X8: [open_notebook] opens an absolute path as a file URI, joins a
    relative path to the only workspace folder, and otherwise (no folder,
    or several) fails with a validation error, the host unchanged. *)
Theorem open_notebook_path env a b isAbs folders s t defs pos ci ct ne path w :
  (isAbs path = true ->
   handleToolCall env a b isAbs folders "open_notebook"
     (mkParams s t defs pos ci ct ne path) w = Opening (FileUri path))
  /\ (isAbs path = false -> List.length folders = 1%nat ->
      exists folder, folders = [folder]
      /\ handleToolCall env a b isAbs folders "open_notebook"
           (mkParams s t defs pos ci ct ne path) w = Opening (JoinedUri folder path))
  /\ (isAbs path = false -> List.length folders <> 1%nat ->
      exists e, handleToolCall env a b isAbs folders "open_notebook"
                  (mkParams s t defs pos ci ct ne path) w = Done (Err e) w
      /\ err_code e = VALIDATION_ERROR).
Proof.
  unfold handleToolCall. destruct (Config.getNotebookSettings a b) as [ms0 ts0];
    set (ms := Config.toInteger ms0); set (ts := Config.toInteger ts0).
  change (toolAction "open_notebook" _ ms ts isAbs folders) with
    (uri <- notebookUriOf isAbs folders path ;; Ok (OpenNotebook uri)).
  unfold notebookUriOf.
  split; [|split].
  - intros H. rewrite H. reflexivity.
  - intros H Hl. rewrite H.
    destruct folders as [|f [|f' rest]]; simpl in Hl; try discriminate.
    exists f. split; reflexivity.
  - intros H Hl. rewrite H.
    destruct folders as [|f [|f' rest]]; simpl in Hl; [| congruence |];
      eexists; split; reflexivity.
Qed.

Lemma open_notebook_path_witness :
  exists e, handleToolCall (Sync.mkEnv [] []) None None (fun _ => false) []
              "open_notebook" (mkParams 0 0 [] None 0 EmptyString None "nb.ipynb")
              (mkWorld None [])
            = Done (Err e) (mkWorld None [])
  /\ err_code e = VALIDATION_ERROR.
Proof.
  apply (proj2 (proj2 (open_notebook_path (Sync.mkEnv [] []) None None (fun _ => false) []
                         0 0 [] None 0 EmptyString None "nb.ipynb" (mkWorld None [])))).
  - reflexivity.
  - simpl. discriminate.
Defined.

(** X9: [modify_notebook_cell_content] with an index [i] in range sends one
    replace edit of [[i, i+1)] holding one cell of the old kind, language
    and metadata with the new text; the notebook is dirty, its texts are
    the old ones with the new content at [i], kinds and metadata are kept
    and the indices run from 0.  With [noexec] true the reply is the
    success line alone; otherwise (false or absent) the cell [i] of the
    edited notebook is then run and its execution report follows the
    success line after a blank line. *)
Theorem modify_cell_in_range env a b isAbs folders u ty dirty ks l1 c l2 content
  s t defs pos noexec path cs :
  let i := Z.of_nat (List.length l1) in
  let data := mkData (cell_kind c) content
                (match cell_kind c with Markup => "markdown" | Code => cell_languageId c end)
                (Some (cell_metadata c)) in
  let res := "Successfully modified cell at index " ++ Str.of_Z i ++ " with new content." in
  exists cells',
    (noexec = Some true ->
     handleToolCall env a b isAbs folders "modify_notebook_cell_content"
       (mkParams s t defs pos i content noexec path)
       (mkWorld (Some (mkDoc u ty dirty ks (l1 ++ c :: l2))) cs)
     = Done (Ok res)
         (mkWorld (Some (mkDoc u ty true ks cells')) (cs ++ [ApplyReplace i (i + 1) [data]])))
    /\ (noexec <> Some true ->
        exists mo to,
          handleToolCall env a b isAbs folders "modify_notebook_cell_content"
            (mkParams s t defs pos i content noexec path)
            (mkWorld (Some (mkDoc u ty dirty ks (l1 ++ c :: l2))) cs)
          = Done (Ok (res ++ Str.nl ++ Str.nl
                      ++ snd (Sync.executeNotebookCells cells' i (i + 1) mo to env)))
              (mkWorld (Some (mkDoc u ty true ks cells'))
                 (cs ++ [ApplyReplace i (i + 1) [data];
                         Execution (fst (Sync.executeNotebookCells cells' i (i + 1) mo to env))])))
    /\ map cell_text cells' = (map cell_text l1 ++ content :: map cell_text l2)%list
    /\ map cell_kind cells' = map cell_kind (l1 ++ c :: l2)%list
    /\ map cell_metadata cells' = map cell_metadata (l1 ++ c :: l2)%list
    /\ (forall k d, nth_error cells' k = Some d -> cell_index d = Z.of_nat k).
Proof.
  intros i data res.
  set (cells' := reindexFrom 0 (l1 ++ map materialize [data] ++ l2)%list).
  exists cells'.
  assert (Hv : validateCellIndex "modify_notebook_cell_content" i
                 (cellCount (mkDoc u ty dirty ks (l1 ++ c :: l2)%list)) = Ok i).
  { unfold validateCellIndex, cellCount, i. simpl nb_cells. rewrite length_app. simpl List.length.
    zcases; simpl; try lia; reflexivity. }
  assert (Hr : replaceCellData [c] [mkDef content None None] = Ok [data]).
  { unfold data. destruct c as [ci [|] cl ct ce co cm]; reflexivity. }
  assert (Hs : js_slice (l1 ++ c :: l2)%list i (i + 1) = [c]).
  { apply (js_slice_middle l1 [c] l2). }
  assert (Hsp : spliceCells (l1 ++ c :: l2)%list i (i + 1) [data] = cells').
  { apply (spliceCells_parts l1 [c] l2 [data]). }
  assert (Hrun : forall (nx : bool) mo to,
    runOp env (ModifyCellContent (validateCellIndex "modify_notebook_cell_content" i)
                 content nx mo to) (mkWorld (Some (mkDoc u ty dirty ks (l1 ++ c :: l2))) cs)
    = if nx then (Ok res, mkWorld (Some (mkDoc u ty true ks cells'))
                            (cs ++ [ApplyReplace i (i + 1) [data]]))
      else (Ok (res ++ Str.nl ++ Str.nl
                ++ snd (Sync.executeNotebookCells cells' i (i + 1) mo to env)),
            mkWorld (Some (mkDoc u ty true ks cells'))
              (cs ++ [ApplyReplace i (i + 1) [data];
                      Execution (fst (Sync.executeNotebookCells cells' i (i + 1) mo to env))]))).
  { intros nx mo to. cbn [runOp activeNotebook].
    unfold replaceCellsOn. cbn [nb_cells bind]. rewrite Hv. cbn [bind].
    rewrite Hs, Hr, Hsp. cbn [calls activeNotebook withCells nb_uri nb_notebookType
                             nb_kernelspec nb_cells].
    destruct nx; [reflexivity|].
    destruct (Sync.executeNotebookCells cells' i (i + 1) mo to env) as [tr er].
    cbn [fst snd]. rewrite <- app_assoc. reflexivity. }
  split; [|split; [|split; [|split; [|split]]]].
  - intros ->. unfold handleToolCall. destruct (Config.getNotebookSettings a b) as [ms0 ts0].
    set (ms := Config.toInteger ms0); set (ts := Config.toInteger ts0).
    change (toolAction _ _ ms ts isAbs folders) with
      (Ok (CallService (ModifyCellContent (validateCellIndex "modify_notebook_cell_content" i)
                          content true ms ts)) : result ToolAction).
    cbv iota beta. rewrite (Hrun true ms ts). reflexivity.
  - intros Hn. unfold handleToolCall. destruct (Config.getNotebookSettings a b) as [ms0 ts0].
    set (ms := Config.toInteger ms0); set (ts := Config.toInteger ts0).
    exists ms, ts.
    assert (Hnx : match noexec with Some b => b | None => false end = false).
    { destruct noexec as [[|]|]; congruence. }
    change (toolAction _ _ ms ts isAbs folders) with
      (Ok (CallService (ModifyCellContent (validateCellIndex "modify_notebook_cell_content" i)
                          content (match noexec with Some b => b | None => false end) ms ts))
       : result ToolAction).
    rewrite Hnx. cbv iota beta. rewrite (Hrun false ms ts). reflexivity.
  - unfold cells'. rewrite reindexFrom_text. simpl. rewrite map_app. reflexivity.
  - unfold cells'. rewrite reindexFrom_kind. rewrite !map_app. reflexivity.
  - unfold cells'. rewrite reindexFrom_metadata. rewrite !map_app. reflexivity.
  - intros k d H. apply reindexFrom_index in H. lia.
Qed.

(** X10: [delete_notebook_cells] on a valid range [[s, t)] sends one delete
    edit and reports the count and the range; what remains is the prefix
    and the suffix, re-indexed from 0, and the notebook is dirty. *)
Theorem delete_range_via_tool env a b isAbs folders u ty dirty ks l1 c l2 l3
  defs pos ci ct ne path cs :
  let s := Z.of_nat (List.length l1) in
  let t := s + Z.of_nat (List.length (c :: l2)) in
  exists cells',
    handleToolCall env a b isAbs folders "delete_notebook_cells"
      (mkParams s t defs pos ci ct ne path)
      (mkWorld (Some (mkDoc u ty dirty ks (l1 ++ (c :: l2) ++ l3)%list)) cs)
    = Done (Ok ("Successfully deleted " ++ Str.of_Z (t - s) ++ " cell" ++ plural (t - s)
                ++ " from index " ++ Str.of_Z s ++ " to " ++ Str.of_Z (t - 1) ++ "."))
        (mkWorld (Some (mkDoc u ty true ks cells')) (cs ++ [ApplyDelete s t]))
    /\ map cell_text cells' = map cell_text (l1 ++ l3)
    /\ map cell_kind cells' = map cell_kind (l1 ++ l3)
    /\ (forall k d, nth_error cells' k = Some d -> cell_index d = Z.of_nat k).
Proof.
  intros s t.
  exists (reindexFrom 0 (l1 ++ map materialize [] ++ l3)%list).
  assert (Hv : Dispatch.validateRange "delete_notebook_cells" s t
                 (cellCount (mkDoc u ty dirty ks (l1 ++ (c :: l2) ++ l3)%list)) = Ok (s, t)).
  { unfold Dispatch.validateRange, cellCount, t, s. simpl nb_cells.
    rewrite !length_app. simpl List.length. rewrite ?length_app.
    zcases; simpl; try lia; reflexivity. }
  split; [|split; [|split]].
  - unfold handleToolCall. destruct (Config.getNotebookSettings a b) as [ms0 ts0];
    set (ms := Config.toInteger ms0); set (ts := Config.toInteger ts0).
    change (toolAction _ _ ms ts isAbs folders) with
      (Ok (CallService (DeleteCells (Dispatch.validateRange "delete_notebook_cells" s t)))
       : result ToolAction).
    cbn [runOp activeNotebook nb_cells]. rewrite Hv.
    unfold t, s. rewrite (spliceCells_parts l1 (c :: l2) l3 []). reflexivity.
  - rewrite reindexFrom_text. rewrite !map_app. reflexivity.
  - rewrite reindexFrom_kind. rewrite !map_app. reflexivity.
  - intros k d H. apply reindexFrom_index in H. lia.
Qed.

(** X11: [replace_notebook_cells] on a valid range, with cell definitions
    that the tool schema admits ([cell_type] "code" or "markdown") and
    whose cell data builds, sends one replace edit with that data and
    reports the counts; the texts become prefix, new contents, suffix,
    re-indexed from 0.  With [noexec] true the reply is the success line
    alone; otherwise the new cells are then run and the execution report
    follows after a blank line. *)
Theorem replace_range_via_tool env a b isAbs folders u ty dirty ks l1 c l2 l3
  defs datas pos ci ct noexec path cs :
  Forall (fun d => def_cell_type d = Some "code" \/ def_cell_type d = Some "markdown") defs ->
  replaceCellData (c :: l2) defs = Ok datas ->
  let s := Z.of_nat (List.length l1) in
  let t := s + Z.of_nat (List.length (c :: l2)) in
  let n := Z.of_nat (List.length defs) in
  let res := "Successfully replaced " ++ Str.of_Z (t - s) ++ " cells with "
             ++ Str.of_Z n ++ " new cells." in
  exists cells',
    (noexec = Some true ->
     handleToolCall env a b isAbs folders "replace_notebook_cells"
       (mkParams s t defs pos ci ct noexec path)
       (mkWorld (Some (mkDoc u ty dirty ks (l1 ++ (c :: l2) ++ l3)%list)) cs)
     = Done (Ok res)
         (mkWorld (Some (mkDoc u ty true ks cells')) (cs ++ [ApplyReplace s t datas])))
    /\ (noexec <> Some true ->
        exists mo to,
          handleToolCall env a b isAbs folders "replace_notebook_cells"
            (mkParams s t defs pos ci ct noexec path)
            (mkWorld (Some (mkDoc u ty dirty ks (l1 ++ (c :: l2) ++ l3)%list)) cs)
          = Done (Ok (res ++ Str.nl ++ Str.nl
                      ++ snd (Sync.executeNotebookCells cells' s (s + n) mo to env)))
              (mkWorld (Some (mkDoc u ty true ks cells'))
                 (cs ++ [ApplyReplace s t datas;
                         Execution (fst (Sync.executeNotebookCells cells' s (s + n) mo to env))])))
    /\ map cell_text cells' = (map cell_text l1 ++ map def_content defs ++ map cell_text l3)%list
    /\ (forall k d, nth_error cells' k = Some d -> cell_index d = Z.of_nat k).
Proof.
  intros _ Hr s t n res.
  exists (reindexFrom 0 (l1 ++ map materialize datas ++ l3)%list).
  assert (Hv : validateIndicesAndCells "replace_notebook_cells" s t defs
                 (cellCount (mkDoc u ty dirty ks (l1 ++ (c :: l2) ++ l3)%list))
               = Ok (s, t, defs)).
  { unfold validateIndicesAndCells, cellCount, t, s. simpl nb_cells.
    rewrite !length_app. simpl List.length. rewrite ?length_app.
    zcases; simpl; try lia; reflexivity. }
  assert (Hrun : forall (nx : bool) mo to,
    runOp env (ReplaceCells (validateIndicesAndCells "replace_notebook_cells" s t defs) nx mo to)
      (mkWorld (Some (mkDoc u ty dirty ks (l1 ++ (c :: l2) ++ l3)%list)) cs)
    = if nx then
        (Ok res, mkWorld (Some (mkDoc u ty true ks
                                  (reindexFrom 0 (l1 ++ map materialize datas ++ l3)%list)))
                   (cs ++ [ApplyReplace s t datas]))
      else
        (Ok (res ++ Str.nl ++ Str.nl
             ++ snd (Sync.executeNotebookCells
                       (reindexFrom 0 (l1 ++ map materialize datas ++ l3)%list)
                       s (s + n) mo to env)),
         mkWorld (Some (mkDoc u ty true ks
                          (reindexFrom 0 (l1 ++ map materialize datas ++ l3)%list)))
           (cs ++ [ApplyReplace s t datas;
                   Execution (fst (Sync.executeNotebookCells
                                     (reindexFrom 0 (l1 ++ map materialize datas ++ l3)%list)
                                     s (s + n) mo to env))]))).
  { intros nx mo to. cbn [runOp activeNotebook]. unfold replaceCellsOn. cbn [nb_cells].
    rewrite Hv. unfold res, n, t, s. rewrite (js_slice_middle l1 (c :: l2) l3), Hr.
    rewrite (spliceCells_parts l1 (c :: l2) l3 datas).
    rewrite (replaceCellDataFrom_length _ _ _ _ Hr).
    destruct nx; [reflexivity|].
    cbn [withCells nb_uri nb_notebookType nb_kernelspec nb_cells calls].
    destruct (Sync.executeNotebookCells _ _ _ _ _ env) as [tr er].
    cbn [fst snd]. rewrite <- app_assoc. reflexivity. }
  split; [|split; [|split]].
  - intros ->. unfold handleToolCall. destruct (Config.getNotebookSettings a b) as [ms0 ts0].
    set (ms := Config.toInteger ms0); set (ts := Config.toInteger ts0).
    change (toolAction _ _ ms ts isAbs folders) with
      (Ok (CallService (ReplaceCells (validateIndicesAndCells "replace_notebook_cells" s t defs)
                          true ms ts)) : result ToolAction).
    cbv iota beta. rewrite (Hrun true ms ts). reflexivity.
  - intros Hn. unfold handleToolCall. destruct (Config.getNotebookSettings a b) as [ms0 ts0].
    set (ms := Config.toInteger ms0); set (ts := Config.toInteger ts0).
    exists ms, ts.
    assert (Hnx : match noexec with Some b => b | None => false end = false).
    { destruct noexec as [[|]|]; congruence. }
    change (toolAction _ _ ms ts isAbs folders) with
      (Ok (CallService (ReplaceCells (validateIndicesAndCells "replace_notebook_cells" s t defs)
                          (match noexec with Some b => b | None => false end) ms ts))
       : result ToolAction).
    rewrite Hnx. cbv iota beta. rewrite (Hrun false ms ts). reflexivity.
  - rewrite reindexFrom_text. rewrite !map_app.
    unfold materialize. rewrite map_map. simpl.
    rewrite <- (replaceCellDataFrom_values _ _ _ _ Hr). reflexivity.
  - intros k d H. apply reindexFrom_index in H. lia.
Qed.

Lemma replace_range_via_tool_witness :
  exists cells',
    handleToolCall (Sync.mkEnv [] []) None None (fun _ => true) []
      "replace_notebook_cells"
      (mkParams 1 2 [mkDef "## notes" (Some "markdown") None] None 0 EmptyString
         (Some true) EmptyString)
      (mkWorld (Some (mkDoc "file:///nb.ipynb" "jupyter-notebook" false None
                        ([Samples.codeCell 0 "x = 1" (Some 1)]
                         ++ [Samples.mdCell 1 "# notes"]
                         ++ [Samples.codeCell 2 "print(x)" (Some 2)])%list)) [])
    = Done (Ok ("Successfully replaced " ++ Str.of_Z (2 - 1) ++ " cells with "
                ++ Str.of_Z 1 ++ " new cells."))
        (mkWorld (Some (mkDoc "file:///nb.ipynb" "jupyter-notebook" true None cells'))
           [ApplyReplace 1 2 [mkData Markup "## notes" "markdown" (Some [])]])
    /\ map cell_text cells' = ["x = 1"; "## notes"; "print(x)"].
Proof.
  destruct (replace_range_via_tool (Sync.mkEnv [] []) None None (fun _ => true) []
           "file:///nb.ipynb" "jupyter-notebook" false None
           [Samples.codeCell 0 "x = 1" (Some 1)] (Samples.mdCell 1 "# notes") []
           [Samples.codeCell 2 "print(x)" (Some 2)]
           [mkDef "## notes" (Some "markdown") None]
           [mkData Markup "## notes" "markdown" (Some [])]
           None 0 EmptyString (Some true) EmptyString [])
    as [cells' [Hyes [_ [Htext _]]]].
  - constructor; [right; reflexivity | constructor].
  - reflexivity.
  - exists cells'. split; [apply Hyes; reflexivity | exact Htext].
Defined.

(** X12: [insert_notebook_cells] with at least one cell definition that the
    tool schema admits ([cell_type] "code" or "markdown") splits the
    notebook at the clamped insert position, sends one insert edit there
    and reports it; the texts become prefix, new contents, suffix,
    re-indexed from 0.  With [noexec] true the reply is the success line
    alone; otherwise the inserted cells are then run and the execution
    report follows after a blank line. *)
Theorem insert_cells_via_tool env a b isAbs folders u ty dirty ks cells d ds pos
  s t ci ct noexec path cs :
  Forall (fun d => def_cell_type d = Some "code" \/ def_cell_type d = Some "markdown")
    (d :: ds) ->
  exists l1 l2 cells',
    cells = (l1 ++ l2)%list
    /\ Z.of_nat (List.length l1) = insertPositionOf pos (Z.of_nat (List.length cells))
    /\ (noexec = Some true ->
        handleToolCall env a b isAbs folders "insert_notebook_cells"
          (mkParams s t (d :: ds) pos ci ct noexec path)
          (mkWorld (Some (mkDoc u ty dirty ks cells)) cs)
        = Done (Ok ("Successfully inserted " ++ Str.of_Z (Z.of_nat (List.length (d :: ds)))
                    ++ " new cells at position " ++ Str.of_Z (Z.of_nat (List.length l1)) ++ "."))
            (mkWorld (Some (mkDoc u ty true ks cells'))
               (cs ++ [ApplyInsert (Z.of_nat (List.length l1))
                         (map (insertCellData cells) (d :: ds))])))
    /\ (noexec <> Some true ->
        exists mo to,
          handleToolCall env a b isAbs folders "insert_notebook_cells"
            (mkParams s t (d :: ds) pos ci ct noexec path)
            (mkWorld (Some (mkDoc u ty dirty ks cells)) cs)
          = Done (Ok (("Successfully inserted " ++ Str.of_Z (Z.of_nat (List.length (d :: ds)))
                       ++ " new cells at position " ++ Str.of_Z (Z.of_nat (List.length l1))
                       ++ ".") ++ Str.nl ++ Str.nl
                      ++ snd (Sync.executeNotebookCells cells' (Z.of_nat (List.length l1))
                                (Z.of_nat (List.length l1) + Z.of_nat (List.length (d :: ds)))
                                mo to env)))
              (mkWorld (Some (mkDoc u ty true ks cells'))
                 (cs ++ [ApplyInsert (Z.of_nat (List.length l1))
                           (map (insertCellData cells) (d :: ds));
                         Execution (fst (Sync.executeNotebookCells cells'
                                           (Z.of_nat (List.length l1))
                                           (Z.of_nat (List.length l1)
                                            + Z.of_nat (List.length (d :: ds)))
                                           mo to env))])))
    /\ map cell_text cells' = (map cell_text l1 ++ map def_content (d :: ds)
                               ++ map cell_text l2)%list
    /\ (forall k c, nth_error cells' k = Some c -> cell_index c = Z.of_nat k).
Proof.
  intros _.
  set (P := insertPositionOf pos (Z.of_nat (List.length cells))).
  assert (HP : 0 <= P <= Z.of_nat (List.length cells)).
  { unfold P, insertPositionOf. destruct pos; lia. }
  exists (firstn (Z.to_nat P) cells), (skipn (Z.to_nat P) cells).
  exists (reindexFrom 0 (firstn (Z.to_nat P) cells
                         ++ map materialize (map (insertCellData cells) (d :: ds))
                         ++ skipn (Z.to_nat P) cells)%list).
  assert (Hlen : Z.of_nat (List.length (firstn (Z.to_nat P) cells)) = P).
  { rewrite length_firstn. lia. }
  split; [symmetry; apply firstn_skipn|].
  split; [exact Hlen|].
  rewrite Hlen.
  assert (Hrun : forall (nx : bool) mo to,
    runOp env (InsertCells (d :: ds) pos nx mo to) (mkWorld (Some (mkDoc u ty dirty ks cells)) cs)
    = if nx then
        (Ok ("Successfully inserted " ++ Str.of_Z (Z.of_nat (List.length (d :: ds)))
             ++ " new cells at position " ++ Str.of_Z P ++ "."),
         mkWorld (Some (mkDoc u ty true ks
                          (reindexFrom 0 (firstn (Z.to_nat P) cells
                             ++ map materialize (map (insertCellData cells) (d :: ds))
                             ++ skipn (Z.to_nat P) cells)%list)))
           (cs ++ [ApplyInsert P (map (insertCellData cells) (d :: ds))]))
      else
        let '(tr, er) := Sync.executeNotebookCells
                           (reindexFrom 0 (firstn (Z.to_nat P) cells
                              ++ map materialize (map (insertCellData cells) (d :: ds))
                              ++ skipn (Z.to_nat P) cells)%list)
                           P (P + Z.of_nat (List.length (d :: ds))) mo to env in
        (Ok (("Successfully inserted " ++ Str.of_Z (Z.of_nat (List.length (d :: ds)))
              ++ " new cells at position " ++ Str.of_Z P ++ ".") ++ Str.nl ++ Str.nl ++ er),
         mkWorld (Some (mkDoc u ty true ks
                          (reindexFrom 0 (firstn (Z.to_nat P) cells
                             ++ map materialize (map (insertCellData cells) (d :: ds))
                             ++ skipn (Z.to_nat P) cells)%list)))
           (cs ++ [ApplyInsert P (map (insertCellData cells) (d :: ds)); Execution tr]))).
  { intros nx mo to. cbn [runOp activeNotebook nb_cells insertCells]. rewrite length_map.
    destruct nx; [reflexivity|].
    cbn [withCells nb_uri nb_notebookType nb_kernelspec nb_cells calls].
    destruct (Sync.executeNotebookCells _ _ _ _ _ env) as [tr er].
    rewrite <- app_assoc. reflexivity. }
  split; [|split; [|split]].
  - intros ->. unfold handleToolCall. destruct (Config.getNotebookSettings a b) as [ms0 ts0].
    set (ms := Config.toInteger ms0); set (ts := Config.toInteger ts0).
    change (toolAction _ _ ms ts isAbs folders) with
      (Ok (CallService (InsertCells (d :: ds) pos true ms ts)) : result ToolAction).
    cbv iota beta. rewrite (Hrun true ms ts). reflexivity.
  - intros Hn. unfold handleToolCall. destruct (Config.getNotebookSettings a b) as [ms0 ts0].
    set (ms := Config.toInteger ms0); set (ts := Config.toInteger ts0).
    exists ms, ts.
    assert (Hnx : match noexec with Some b => b | None => false end = false).
    { destruct noexec as [[|]|]; congruence. }
    change (toolAction _ _ ms ts isAbs folders) with
      (Ok (CallService (InsertCells (d :: ds) pos
                          (match noexec with Some b => b | None => false end) ms ts))
       : result ToolAction).
    rewrite Hnx. cbv iota beta. rewrite (Hrun false ms ts).
    destruct (Sync.executeNotebookCells _ _ _ _ _ env) as [tr er]. reflexivity.
  - rewrite reindexFrom_text, !map_app. unfold materialize. rewrite !map_map. reflexivity.
  - intros k c H. apply reindexFrom_index in H. lia.
Qed.

Lemma insert_cells_via_tool_witness :
  exists cells',
    handleToolCall (Sync.mkEnv [] []) None None (fun _ => true) []
      "insert_notebook_cells"
      (mkParams 0 0 [mkDef "y = 2" (Some "code") None] (Some 1) 0 EmptyString
         (Some true) EmptyString)
      (mkWorld (Some Samples.doc3) [])
    = Done (Ok ("Successfully inserted " ++ Str.of_Z 1 ++ " new cells at position "
                ++ Str.of_Z 1 ++ "."))
        (mkWorld (Some (mkDoc "file:///nb.ipynb" "jupyter-notebook" true None cells'))
           [ApplyInsert 1 (map (insertCellData Samples.cells3)
                             [mkDef "y = 2" (Some "code") None])])
    /\ map cell_text cells' = ["x = 1"; "y = 2"; "# notes"; "print(x)"].
Proof.
  destruct (insert_cells_via_tool (Sync.mkEnv [] []) None None (fun _ => true) []
              "file:///nb.ipynb" "jupyter-notebook" false None Samples.cells3
              (mkDef "y = 2" (Some "code") None) [] (Some 1) 0 0 0 EmptyString
              (Some true) EmptyString [])
    as [l1 [l2 [cells' [Hsplit [Hpos [Hyes [_ [Htext _]]]]]]]].
  - constructor; [left; reflexivity | constructor].
  - exists cells'.
    change (insertPositionOf (Some 1) (Z.of_nat (List.length Samples.cells3))) with 1 in Hpos.
    destruct l1 as [|x [|y l1']]; cbn [List.length] in Hpos; try lia.
    split.
    + apply Hyes. reflexivity.
    + unfold Samples.cells3 in Hsplit. injection Hsplit as Hx Hl2.
        rewrite Htext, <- Hx, <- Hl2. reflexivity.
Defined.

End ToolsFacts.

Module OperationFacts.

Import Errors Nb Edit Service Tools Measures.

Lemma replaceCellsOn_err env v noexec m t nb w e w' :
  replaceCellsOn env v noexec m t nb w = (Err e, w') -> w' = w.
Proof.
  unfold replaceCellsOn.
  destruct (v (cellCount nb)) as [[[s0 t0] defs]|e0]; [|intros H; inversion H; reflexivity].
  destruct (replaceCellData _ defs) as [datas|e1]; [|intros H; inversion H; reflexivity].
  destruct noexec; [discriminate|].
  destruct (Sync.executeNotebookCells _ _ _ _ _ _). discriminate.
Qed.

(** X13: whenever a notebook operation fails, the host (active notebook
    and the edits and commands it received) is exactly as before: every
    error is raised before the first edit. *)
Theorem failed_operation_leaves_host env op w e w' :
  runOp env op w = (Err e, w') -> w' = w.
Proof.
  intros H. destruct op; unfold runOp in H; destruct (activeNotebook w) as [nb|];
    try (inversion H; reflexivity).
  - destruct (insertCells cells insertPosition (Some nb)) as [[p0 datas]|e0];
      [|inversion H; reflexivity].
    destruct noexec; [discriminate|].
    destruct (Sync.executeNotebookCells _ _ _ _ _ _). discriminate.
  - exact (replaceCellsOn_err _ _ _ _ _ _ _ _ _ H).
  - destruct (replaceCellsOn _ _ _ _ _ _ _) as [[r|e0] w1] eqn:Er.
    + destruct noexec; [discriminate|].
      destruct (Sync.executeNotebookCells _ _ _ _ _ _). discriminate.
    + inversion H; subst. exact (replaceCellsOn_err _ _ _ _ _ _ _ _ _ Er).
  - destruct (validateIndices (cellCount nb)) as [[s0 t0]|e0]; [|inversion H; reflexivity].
    destruct (Sync.executeNotebookCells _ _ _ _ _ _). discriminate.
  - destruct (validateIndices (cellCount nb)) as [[s0 t0]|e0]; [|inversion H; reflexivity].
    discriminate.
Qed.

Lemma failed_operation_leaves_host_witness :
  runOp (Sync.mkEnv [] []) (DeleteCells (Dispatch.validateRange "delete_notebook_cells" 2 2))
    (mkWorld (Some Samples.doc3) [])
  = (Err (rangeOutOfBounds 2 2 3 "delete_notebook_cells"), mkWorld (Some Samples.doc3) [])
  /\ mkWorld (Some Samples.doc3) [] = mkWorld (Some Samples.doc3) [].
Proof.
  assert (H : runOp (Sync.mkEnv [] [])
                (DeleteCells (Dispatch.validateRange "delete_notebook_cells" 2 2))
                (mkWorld (Some Samples.doc3) [])
              = (Err (rangeOutOfBounds 2 2 3 "delete_notebook_cells"),
                 mkWorld (Some Samples.doc3) [])) by reflexivity.
  split; [exact H|].
  exact (failed_operation_leaves_host _ _ _ _ _ H).
Defined.



End OperationFacts.

Module CellDataFacts.

Import Errors Nb Edit Service.

(** X16: [insertCells] builds a code cell exactly when [cell_type] is
    "code"; a markdown cell gets language "markdown"; a code cell's
    language is empty only when no [language_id] is given and the notebook
    has no cells. *)
Theorem insert_language_never_empty_unless_first existing d :
  (data_kind (insertCellData existing d) = Code <-> def_cell_type d = Some "code")
  /\ (data_kind (insertCellData existing d) = Markup ->
      data_languageId (insertCellData existing d) = "markdown")
  /\ (data_kind (insertCellData existing d) = Code ->
      (data_languageId (insertCellData existing d) = EmptyString
       <-> truthy (def_language_id d) = false /\ existing = [])).
Proof.
  unfold insertCellData.
  destruct (def_cell_type d) as [ty|] eqn:Ety; cbn [data_kind data_languageId].
  2:{ split; [split; discriminate|]. split; [reflexivity|discriminate]. }
  destruct (String.eqb ty "code") eqn:Ec.
  2:{ split.
      - split; [discriminate|]. intros H. inversion H; subst.
        rewrite String.eqb_refl in Ec. discriminate.
      - split; [reflexivity|discriminate]. }
  apply String.eqb_eq in Ec. subst ty.
  split; [split; reflexivity|]. split; [discriminate|]. intros _.
  cbn [kind_eqb andb].
  destruct (truthy (def_language_id d)) eqn:Et.
  - destruct (def_language_id d) as [l|]; [|discriminate]. simpl in Et |- *.
    destruct (String.eqb l EmptyString) eqn:El; [discriminate|].
    simpl. split; [intros H; subst l; rewrite String.eqb_refl in El; discriminate|intros [H _]; discriminate].
  - rewrite String.eqb_refl. simpl.
    destruct existing as [|c rest]; simpl.
    + split; [intros _; split; reflexivity|reflexivity].
    + destruct (if isCode c then Some c else find isCode rest) as [fc|];
        [destruct (String.eqb (cell_languageId fc) EmptyString) eqn:Ef|].
      * split; [discriminate|intros [_ H]; discriminate].
      * split; [intros H; rewrite H in Ef; discriminate|intros [_ H]; discriminate].
      * split; [discriminate|intros [_ H]; discriminate].
Qed.

Lemma insert_language_never_empty_unless_first_witness :
  data_languageId (insertCellData [] (mkDef "x = 1" (Some "code") None)) = EmptyString
  /\ data_languageId (insertCellData Samples.juliaRange (mkDef "y = 2" (Some "code") None))
     <> EmptyString.
Proof.
  split.
  - apply (proj2 (proj2 (proj2 (insert_language_never_empty_unless_first []
                                   (mkDef "x = 1" (Some "code") None))) eq_refl)).
    split; reflexivity.
  - intros H.
    apply (proj2 (proj2 (insert_language_never_empty_unless_first Samples.juliaRange
                           (mkDef "y = 2" (Some "code") None))) eq_refl) in H.
    destruct H as [_ H]. discriminate.
Defined.

(** X17: a markdown cell definition whose [language_id] is not "markdown"
    is rejected by [replaceCells] with an error of code [VALIDATION_ERROR]
    and message "language_id must be 'markdown' for markdown cells",
    while [insertCells] accepts it and sets the language to "markdown". *)
Theorem markdown_language_replace_vs_insert ctr i existing content ty l :
  ty <> EmptyString -> ty <> "code" -> l <> "markdown" ->
  (exists e, replaceCellDataAt ctr i (mkDef content (Some ty) (Some l)) = Err e
   /\ err_code e = VALIDATION_ERROR
   /\ err_message e = "language_id must be 'markdown' for markdown cells")
  /\ insertCellData existing (mkDef content (Some ty) (Some l))
     = mkData Markup content "markdown" None.
Proof.
  intros Hty Hc Hl. split.
  - exists (validationError "language_id must be 'markdown' for markdown cells").
    split; [|split; reflexivity].
    unfold replaceCellDataAt, kindFor, truthy, or_empty. cbn [def_cell_type].
    destruct (String.eqb ty EmptyString) eqn:E1; [apply String.eqb_eq in E1; contradiction|].
    destruct (String.eqb ty "code") eqn:E2; [apply String.eqb_eq in E2; contradiction|].
    cbn [negb bind languageFor def_language_id].
    destruct (String.eqb l "markdown") eqn:E3; [apply String.eqb_eq in E3; contradiction|].
    reflexivity.
  - unfold insertCellData. cbn [def_cell_type].
    destruct (String.eqb ty "code") eqn:E2; [apply String.eqb_eq in E2; contradiction|].
    reflexivity.
Qed.

Lemma markdown_language_replace_vs_insert_witness :
  (exists e, replaceCellDataAt Samples.cells3 1
               (mkDef "# notes" (Some "markdown") (Some EmptyString)) = Err e
   /\ err_code e = VALIDATION_ERROR
   /\ err_message e = "language_id must be 'markdown' for markdown cells")
  /\ insertCellData Samples.cells3 (mkDef "# notes" (Some "markdown") (Some EmptyString))
     = mkData Markup "# notes" "markdown" None.
Proof.
  apply (markdown_language_replace_vs_insert Samples.cells3 1 Samples.cells3 "# notes"
           "markdown" EmptyString); discriminate.
Defined.

(** X18: in [replaceCells], a definition without [cell_type] takes the kind
    of the replaced cell at its position (the first replaced cell beyond
    the range); the metadata of the replaced cell at the same position is
    copied exactly when that cell exists and has the new cell's kind. *)
Theorem replace_kind_and_metadata ctr defs datas j d cd :
  replaceCellData ctr defs = Ok datas ->
  nth_error defs j = Some d -> nth_error datas j = Some cd ->
  (truthy (def_cell_type d) = false ->
   exists src, nth_error ctr (if Nat.ltb j (List.length ctr) then j else 0%nat) = Some src
   /\ data_kind cd = cell_kind src)
  /\ (forall peer, nth_error ctr j = Some peer -> cell_kind peer = data_kind cd ->
      data_metadata cd = Some (cell_metadata peer))
  /\ (forall m, data_metadata cd = Some m ->
      exists peer, nth_error ctr j = Some peer /\ cell_kind peer = data_kind cd
      /\ m = cell_metadata peer).
Proof.
  intros H Hd Hc.
  pose proof (EditFacts.replaceCellDataFrom_nth ctr 0 defs datas H j d cd Hd Hc) as Hat.
  simpl in Hat. unfold replaceCellDataAt, bind in Hat.
  destruct (kindFor ctr j d) as [k|] eqn:Ek; [|discriminate].
  destruct (languageFor ctr j d k) as [lg|]; [|discriminate].
  injection Hat as <-. cbn [data_kind data_metadata].
  split; [|split].
  - intros Ht. unfold kindFor in Ek. rewrite Ht in Ek.
    destruct (nth_error ctr (if Nat.ltb j (List.length ctr) then j else 0%nat)) as [src|];
      [|discriminate].
    injection Ek as <-. exists src. split; reflexivity.
  - intros peer Hp Hk.
    assert (Hlt : Nat.ltb j (List.length ctr) = true).
    { apply Nat.ltb_lt, nth_error_Some. rewrite Hp. discriminate. }
    rewrite Hlt, Hp, Hk. destruct k; reflexivity.
  - intros m Hm.
    destruct (Nat.ltb j (List.length ctr)); [|discriminate].
    destruct (nth_error ctr j) as [peer|]; [|discriminate].
    destruct (kind_eqb (cell_kind peer) k) eqn:Ek2; [|discriminate].
    injection Hm as <-. exists peer. split; [reflexivity|]. split; [|reflexivity].
    destruct (cell_kind peer), k; simpl in Ek2; congruence.
Qed.

Lemma replace_kind_and_metadata_witness :
  exists datas cd,
    replaceCellData Samples.juliaRange
      [mkDef "a" None None; mkDef "b" None None; mkDef "c" None None] = Ok datas
    /\ nth_error datas 2 = Some cd
    /\ (truthy (def_cell_type (mkDef "c" None None)) = false ->
        exists src, nth_error Samples.juliaRange
                      (if Nat.ltb 2 (List.length Samples.juliaRange) then 2%nat else 0%nat)
                    = Some src /\ data_kind cd = cell_kind src)
    /\ (forall peer, nth_error Samples.juliaRange 2 = Some peer ->
        cell_kind peer = data_kind cd -> data_metadata cd = Some (cell_metadata peer))
    /\ (forall m, data_metadata cd = Some m ->
        exists peer, nth_error Samples.juliaRange 2 = Some peer
        /\ cell_kind peer = data_kind cd /\ m = cell_metadata peer).
Proof.
  eexists; eexists.
  split; [reflexivity|]. split; [reflexivity|].
  eapply (replace_kind_and_metadata Samples.juliaRange
           [mkDef "a" None None; mkDef "b" None None; mkDef "c" None None]);
    reflexivity.
Defined.

End CellDataFacts.

Module RenderFacts.

Import Errors Nb.







End RenderFacts.

Module PollFacts.

Import Sync Measures.



Lemma pollLoop_ext_stuck prev polls :
  pollLoop_ext prev polls false false = (false, waits (List.length polls)).
Proof.
  induction polls as [|live rest IH]; [reflexivity|].
  simpl. rewrite IH. reflexivity.
Qed.

(** X21: the polling loop of extension.ts completes only at its first
    check; when that check does not see every cell changed, it polls at
    every check until the deadline, sleeping 200 ms each time, and reports
    the cells as not completed. *)
Theorem pollLoop_ext_first_check_or_deadline prev polls :
  (polls <> [] /\ cellsChanged prev (hd [] polls) = true
   /\ pollLoop_ext prev polls false true = (true, [PollCells; Sleep 500]))
  \/ pollLoop_ext prev polls false true
     = (match polls with [] => true | _ => false end, waits (List.length polls)).
Proof.
  destruct polls as [|live rest]; [right; reflexivity|].
  simpl. destruct (cellsChanged prev live) eqn:Ec.
  - left. split; [discriminate|]. split; [reflexivity|]. destruct rest; reflexivity.
  - right. rewrite pollLoop_ext_stuck. reflexivity.
Qed.

End PollFacts.

Module BodyMoreFacts.

Import Errors Body SpecWords BodyFacts.

(** X22: [parseRequestBody], given data within the limit and then a close
    (or an error) event before the end, rejects with "Request closed by
    client" (or "Request stream error"), whatever follows; before that
    event nothing is settled. *)
Theorem body_aborted_before_end m pre r post :
  sumLen pre <= m ->
  settled (run m (dataEvents pre ++ [(r, Close)] ++ post))
    = [Rejected (mcpServerError "Request closed by client")]
  /\ settled (run m (dataEvents pre ++ [(r, Error)] ++ post))
    = [Rejected (mcpServerError "Request stream error")]
  /\ settled (run m (dataEvents pre)) = [].
Proof.
  intros Hle. unfold run. rewrite !fold_left_app.
  rewrite run_data_below by (apply initial_pending || (simpl; lia)).
  split; [|split; [|reflexivity]]; cbn [fold_left];
  rewrite run_resolved_stays by (destruct r; reflexivity); destruct r; reflexivity.
Qed.

Lemma body_aborted_before_end_witness :
  sumLen [(true, [Byte.x61])] <= 1 /\
  settled (run 1 (dataEvents [(true, [Byte.x61])] ++ [(false, Close)] ++ [(false, End)]))
    = [Rejected (mcpServerError "Request closed by client")].
Proof.
  split; [simpl; lia|].
  apply (proj1 (body_aborted_before_end 1 [(true, [Byte.x61])] false [(false, End)]
                  ltac:(simpl; lia))).
Defined.

End BodyMoreFacts.

Module HttpFacts.

Import Errors Body SpecWords BodyFacts Http.

(** X23: [handleHttpRequest] answers OPTIONS with 200 on any path, any
    other method on a path other than /mcp with 404 "Not Found", and a
    method other than POST on /mcp with 405, whatever the body. *)
Theorem http_routing (Json : Type) parseJson idOf transport method url maxSize events :
  (method = "OPTIONS" ->
   handleHttpRequest Json parseJson idOf transport method url maxSize events
   = Reply 200 "application/json" NoPayload)
  /\ (method <> "OPTIONS" -> url <> "/mcp" ->
   handleHttpRequest Json parseJson idOf transport method url maxSize events
   = Reply 404 "text/plain" (Text "Not Found"))
  /\ (method <> "OPTIONS" -> method <> "POST" -> url = "/mcp" ->
   handleHttpRequest Json parseJson idOf transport method url maxSize events
   = Reply 405 "text/plain" (Text "Method not allowed")).
Proof.
  unfold handleHttpRequest. split; [|split].
  - intros ->. reflexivity.
  - intros Hm Hu. apply String.eqb_neq in Hm, Hu. rewrite Hm, Hu. reflexivity.
  - intros Hm Hp ->. apply String.eqb_neq in Hm, Hp. rewrite Hm, Hp. reflexivity.
Qed.

Lemma http_routing_witness :
  handleHttpRequest nat (fun _ => Some 0%nat) (fun _ => None) None "GET" "/mcp" 10 []
  = Reply 405 "text/plain" (Text "Method not allowed").
Proof.
  apply (proj2 (proj2 (http_routing nat (fun _ => Some 0%nat) (fun _ => None) None
                         "GET" "/mcp" 10 []))); [discriminate|discriminate|reflexivity].
Defined.

(** X24: for POST /mcp, a body that crosses the size limit or a close
    before the end gives 400 with JSON-RPC error -32700 "Request body parse
    error", no settlement gives 408, a complete body that does not parse
    gives 400 with -32700 "Parse error", and a parsed body goes to the
    transport: 500 "Internal Server Error" without one, handled by it when
    it succeeds, else 500 with -32603 "Internal error" and the request's
    id. *)
Theorem http_post_body (Json : Type) parseJson idOf transport maxSize pre r c post rEnd j :
  sumLen pre <= maxSize ->
  (sumLen pre + Z.of_nat (List.length c) > maxSize ->
   handleHttpRequest Json parseJson idOf transport "POST" "/mcp" maxSize
     (dataEvents pre ++ [(r, Data c)] ++ post)
   = Reply 400 "application/json" (RpcError (-32700) "Request body parse error" None))
  /\ handleHttpRequest Json parseJson idOf transport "POST" "/mcp" maxSize
       (dataEvents pre ++ [(r, Close)] ++ post)
     = Reply 400 "application/json" (RpcError (-32700) "Request body parse error" None)
  /\ handleHttpRequest Json parseJson idOf transport "POST" "/mcp" maxSize (dataEvents pre)
     = Reply 408 "text/plain" (Text "Request timeout")
  /\ (parseJson (map snd pre) = None ->
      handleHttpRequest Json parseJson idOf transport "POST" "/mcp" maxSize
        (dataEvents pre ++ [(rEnd, End)] ++ post)
      = Reply 400 "application/json" (RpcError (-32700) "Parse error" None))
  /\ (parseJson (map snd pre) = Some j ->
      handleHttpRequest Json parseJson idOf transport "POST" "/mcp" maxSize
        (dataEvents pre ++ [(rEnd, End)] ++ post)
      = match transport with
        | None => Reply 500 "text/plain" (Text "Internal Server Error")
        | Some h => if h j then HandledByTransport j
                    else Reply 500 "application/json"
                           (RpcError (-32603) "Internal error" (idOf j))
        end).
Proof.
  intros Hle.
  assert (Hpre : fold_left (deliver maxSize) (dataEvents pre) initial
                 = mkReader (map snd pre) (sumLen pre) false false
                     [EvError; EvData; EvEnd; EvClose] []).
  { rewrite run_data_below by (apply initial_pending || (simpl; lia)). reflexivity. }
  assert (Hend : settled (run maxSize (dataEvents pre ++ [(rEnd, End)] ++ post))
                 = [Resolved (map snd pre)]).
  { unfold run. rewrite !fold_left_app, Hpre. cbn [fold_left].
    rewrite run_resolved_stays by (destruct rEnd; reflexivity). destruct rEnd; reflexivity. }
  unfold handleHttpRequest. cbn [String.eqb Ascii.eqb Bool.eqb negb andb].
  split; [|split; [|split; [|split]]].
  - intros Hgt. unfold run. rewrite !fold_left_app, Hpre. cbn [fold_left].
    unfold deliver at 2. cbn [nameOf listeners existsb event_name_eqb orb].
    unfold onData. cbn [resolved bodySize sizeExceeded].
    rewrite (Z.gtb_ltb _ maxSize).
    destruct (Z.ltb_spec maxSize (sumLen pre + Z.of_nat (List.length c))); [|lia].
    rewrite run_resolved_stays by (destruct r; reflexivity). destruct r; reflexivity.
  - unfold run. rewrite !fold_left_app, Hpre. cbn [fold_left].
    rewrite run_resolved_stays by (destruct r; reflexivity). destruct r; reflexivity.
  - unfold run. rewrite Hpre. reflexivity.
  - intros Hp. rewrite Hend, Hp. reflexivity.
  - intros Hp. rewrite Hend, Hp. reflexivity.
Qed.

Lemma http_post_body_witness :
  handleHttpRequest nat (fun _ => Some 7%nat) (fun _ => None) (Some (fun _ => true))
    "POST" "/mcp" 4 (dataEvents [(true, [Byte.x7b; Byte.x7d])] ++ [(false, End)] ++ [])
  = HandledByTransport 7%nat.
Proof.
  apply (proj2 (proj2 (proj2 (proj2 (http_post_body nat (fun _ => Some 7%nat) (fun _ => None)
           (Some (fun _ => true)) 4 [(true, [Byte.x7b; Byte.x7d])] true [] [] false 7%nat
           ltac:(simpl; lia)))))).
  reflexivity.
Defined.

End HttpFacts.
